(** * Transaction analysis: the rule-based flagging engine of [app.py]

    The script loads a table of transactions into a pandas data frame,
    narrows it to a date window, computes summary metrics, runs five
    detectors that each set the boolean column [flagged], and reports the
    share of flagged rows.  This file embeds that pipeline and proves the
    properties stated about it.

    Modelling conventions.
    - A data frame is the list of its rows, in frame order; a column is a
      list of the same length, aligned by position (row labels are unique,
      so alignment by label and by position agree).
    - A cell of the column [amount] is a float64; the row records the number
      that the cell holds.  Comparing a cell with the integer threshold is
      exact.  The mean and the standard deviation are computed by numpy and
      pandas in float64 arithmetic, which rounds: that arithmetic is the
      interface [Float64], and [binary64] is its IEEE-754 instance, built on
      the primitive floats.
    - A timestamp is an integer count of nanoseconds since the Unix epoch
      (pandas' [datetime64[ns]]); [None] is [NaT].
    - The [NaN] that a pandas reduction gives for want of values (the mean,
      maximum or minimum of no value, the standard deviation of fewer than
      two) is [None].
    - A Python exception is an explicit outcome of the pipeline. *)

From Stdlib Require Import List Bool Btauto ZArith QArith Lia Lqa.
From Stdlib Require Import String Ascii Permutation Sorted OrderedTypeEx.
From Stdlib Require Floats.
Import ListNotations.

Local Open Scope Z_scope.

(** ** Data model *)

(** One row after column mapping and cleaning (lines 51-68). *)
Record Txn : Type := mkTxn {
  amount     : Q;
  account_id : string;
  type_      : string;
  merchant   : string;
  date       : option Z
}.

(** The sidebar inputs (lines 75-79).  A calendar date is the number of days
    since 1970-01-01; [None] is an input left empty. *)
Record Config : Type := mkConfig {
  start_date          : option Z;
  end_date            : option Z;
  user_threshold      : Z;
  rapid_txn_threshold : Z;
  risky_merchants     : list string
}.

Definition DataFrame : Type := list Txn.

(** ** Time *)

Definition ns_per_second : Z := 1000000000.
Definition ns_per_day : Z := 86400 * ns_per_second.

(** [pd.to_datetime] of a calendar date: midnight of that day. *)
Definition to_datetime (d : Z) : Z := d * ns_per_day.

(** [Series.dt.weekday] of a timestamp, Monday = 0; 1970-01-01 was a
    Thursday. *)
Definition weekday (t : Z) : Z := (t / ns_per_day + 3) mod 7.

(** Timestamp of a day number and a time of day, for writing inputs. *)
Definition at_time (d hh mm ss : Z) : Z :=
  to_datetime d + (hh * 3600 + mm * 60 + ss) * ns_per_second.

(** ** Column helpers *)

Definition isna (r : Txn) : bool :=
  match date r with None => true | Some _ => false end.

Definition notna (r : Txn) : bool := negb (isna r).

(** [df['date'].isna().all()]; true on the empty frame. *)
Definition isna_all (df : DataFrame) : bool := forallb isna df.

(** The guard [not df['date'].isna().all()]. *)
Definition has_dates (df : DataFrame) : bool := negb (isna_all df).

(** Comparison of a timestamp cell with a bound; any comparison with [NaT]
    is false. *)
Definition date_ge (c : option Z) (b : Z) : bool :=
  match c with Some t => b <=? t | None => false end.

Definition date_le (c : option Z) (b : Z) : bool :=
  match c with Some t => t <=? b | None => false end.

(** ** Date filter (lines 82-84) *)

Definition in_window (s e : Z) (r : Txn) : bool :=
  date_ge (date r) (to_datetime s) && date_le (date r) (to_datetime e).

Definition date_filter (cfg : Config) (df : DataFrame) : DataFrame :=
  match start_date cfg, end_date cfg with
  | Some s, Some e =>
      if has_dates df then filter (in_window s e) df else df
  | _, _ => df
  end.

(** ** Outcomes

    The script either runs to its end or raises. *)

Inductive outcome (A : Type) : Type :=
| Returned (a : A)
| ZeroDivisionError.
Arguments Returned {A} a.
Arguments ZeroDivisionError {A}.

(** Python's [/] on two integers. *)
Definition truediv (a b : Z) : outcome Q :=
  if b =? 0 then ZeroDivisionError else Returned (inject_Z a / inject_Z b)%Q.

(** ** Floating point

    What the script asks of numpy and pandas on float64 values: the cell
    that holds a number, the constants [0.0] and [2.0], the test for [NaN],
    [+], [*] and [>], and three reductions of a series of cells. *)

Class Float64 : Type := {
  num : Type;
  (** The float64 nearest to a number; the number itself when it is one. *)
  of_cell : Q -> num;
  fzero : num;
  ftwo : num;
  is_nan : num -> bool;
  fadd : num -> num -> num;
  fmul : num -> num -> num;
  (** [x > y]. *)
  fgt : num -> num -> bool;
  (** [Series.mean()] of a series with a value or more. *)
  mean_of : list num -> num;
  (** The mean of one group of [groupby(...).transform('mean')]. *)
  group_mean_of : list num -> num;
  (** The standard deviation of one group of two values or more of
      [groupby(...).transform('std')]. *)
  group_std_of : list num -> num
}.

(** *** IEEE-754 binary64 *)

(** The float64 of an integer, rounded to nearest even. *)
Definition Z2F (z : Z) : PrimFloat.float :=
  FloatOps.SF2Prim
    (SpecFloat.binary_normalize FloatOps.prec FloatOps.emax z 0 false).

(** The float64 of a fraction. *)
Definition Q2F (q : Q) : PrimFloat.float :=
  PrimFloat.div (Z2F (Qnum q)) (Z2F (Zpos (Qden q))).

(** numpy's sum of a float64 array, which [Series.mean()] divides by the
    count: fewer than 8 values are added from left to right, starting from
    [-0.0]; up to 128 values are added into 8 running sums, value [i] into
    sum [i mod 8] as long as 8 values are left, the sums are added pairwise
    and the values left over are added one by one; a longer array is cut
    near its middle, at a multiple of 8, and the sums of the halves are
    added. *)
Definition sum_left (acc : PrimFloat.float) (l : list PrimFloat.float)
    : PrimFloat.float :=
  fold_left PrimFloat.add l acc.

Fixpoint add_lanes (r l : list PrimFloat.float) : list PrimFloat.float :=
  match r, l with
  | x :: r', y :: l' => PrimFloat.add x y :: add_lanes r' l'
  | _, _ => r
  end.

Fixpoint unrolled (fuel : nat) (r l : list PrimFloat.float)
    : list PrimFloat.float * list PrimFloat.float :=
  match fuel with
  | O => (r, l)
  | S k =>
      if (8 <=? List.length l)%nat
      then unrolled k (add_lanes r (firstn 8 l)) (skipn 8 l)
      else (r, l)
  end.

Definition block_sum (l : list PrimFloat.float) : PrimFloat.float :=
  let '(r, rest) := unrolled (List.length l) (firstn 8 l) (skipn 8 l) in
  match r with
  | [r0; r1; r2; r3; r4; r5; r6; r7] =>
      sum_left
        (PrimFloat.add
           (PrimFloat.add (PrimFloat.add r0 r1) (PrimFloat.add r2 r3))
           (PrimFloat.add (PrimFloat.add r4 r5) (PrimFloat.add r6 r7)))
        rest
  | _ => sum_left PrimFloat.neg_zero l
  end.

Fixpoint pairwise_sum (fuel : nat) (l : list PrimFloat.float)
    : PrimFloat.float :=
  let n := List.length l in
  if (n <? 8)%nat then sum_left PrimFloat.neg_zero l
  else if (n <=? 128)%nat then block_sum l
  else
    match fuel with
    | O => block_sum l
    | S k =>
        let n2 := (n / 2 - (n / 2) mod 8)%nat in
        PrimFloat.add (pairwise_sum k (firstn n2 l))
                      (pairwise_sum k (skipn n2 l))
    end.

Definition np_mean (l : list PrimFloat.float) : PrimFloat.float :=
  PrimFloat.div (pairwise_sum (List.length l) l)
                (Z2F (Z.of_nat (List.length l))).

(** pandas' group mean: a compensated (Kahan) sum in frame order, divided
    by the count.  The state is the running sum and the compensation; a
    compensation that is [NaN] is reset to zero. *)
Definition kahan_step (acc : PrimFloat.float * PrimFloat.float)
    (v : PrimFloat.float) : PrimFloat.float * PrimFloat.float :=
  let '(sumx, comp) := acc in
  let y := PrimFloat.sub v comp in
  let t := PrimFloat.add sumx y in
  let c := PrimFloat.sub (PrimFloat.sub t sumx) y in
  (t, if PrimFloat.is_nan c then PrimFloat.zero else c).

Definition kahan_mean (l : list PrimFloat.float) : PrimFloat.float :=
  PrimFloat.div
    (fst (fold_left kahan_step l (PrimFloat.zero, PrimFloat.zero)))
    (Z2F (Z.of_nat (List.length l))).

(** pandas' group standard deviation: Welford's update of the count, the
    mean and the sum of squared deviations in frame order, then the square
    root of that sum over the count less one. *)
Definition welford_step (acc : Z * PrimFloat.float * PrimFloat.float)
    (v : PrimFloat.float) : Z * PrimFloat.float * PrimFloat.float :=
  let '(nobs, mean, m2) := acc in
  let nobs' := nobs + 1 in
  let mean' :=
    PrimFloat.add mean (PrimFloat.div (PrimFloat.sub v mean) (Z2F nobs')) in
  (nobs', mean',
   PrimFloat.add m2
     (PrimFloat.mul (PrimFloat.sub v mean') (PrimFloat.sub v mean))).

Definition welford_std (l : list PrimFloat.float) : PrimFloat.float :=
  let '(nobs, _, m2) :=
    fold_left welford_step l (0, PrimFloat.zero, PrimFloat.zero) in
  PrimFloat.sqrt (PrimFloat.div m2 (Z2F (nobs - 1))).

Definition binary64 : Float64 := {|
  num := PrimFloat.float;
  of_cell := Q2F;
  fzero := PrimFloat.zero;
  ftwo := PrimFloat.two;
  is_nan := PrimFloat.is_nan;
  fadd := PrimFloat.add;
  fmul := PrimFloat.mul;
  fgt := fun x y => PrimFloat.ltb y x;
  mean_of := np_mean;
  group_mean_of := kahan_mean;
  group_std_of := welford_std
|}.

Section Pipeline.
Context {F : Float64}.

(** ** Summary metrics (lines 88-91) *)

Definition Qltb (x y : Q) : bool := negb (Qle_bool y x).

Definition len {A : Type} (l : list A) : Z := Z.of_nat (List.length l).

(** The cells of a column of numbers. *)
Definition cells (l : list Q) : list num := map of_cell l.

(** [Series.mean()]: [NaN] on an empty series. *)
Definition series_mean (l : list Q) : option num :=
  match l with
  | [] => None
  | _ :: _ => Some (mean_of (cells l))
  end.

(** [Series.max()] and [Series.min()]: [NaN] on an empty series. *)
Definition series_max (l : list Q) : option Q :=
  match l with
  | [] => None
  | x :: l' => Some (fold_left (fun m y => if Qle_bool m y then y else m) l' x)
  end.

Definition series_min (l : list Q) : option Q :=
  match l with
  | [] => None
  | x :: l' => Some (fold_left (fun m y => if Qle_bool y m then y else m) l' x)
  end.

(** The mean of one group; a group has a row or more. *)
Definition group_mean (l : list Q) : option num :=
  match l with
  | [] => None
  | _ :: _ => Some (group_mean_of (cells l))
  end.

(** The standard deviation of one group (one degree of freedom removed):
    [NaN] on fewer than two values. *)
Definition group_std (l : list Q) : option num :=
  if 2 <=? len l then Some (group_std_of (cells l)) else None.

(** [Series.fillna(0)]. *)
Definition fillna_zero (o : option num) : num :=
  match o with
  | Some x => if is_nan x then fzero else x
  | None => fzero
  end.

(** ** Flag column *)

(** [df.loc[mask, 'flagged'] = True]. *)
Definition loc_set_true (mask flagged : list bool) : list bool :=
  map (fun mf : bool * bool => if fst mf then true else snd mf)
      (combine mask flagged).

(** ** High-value transactions (lines 103-104) *)

Definition high_value_mask (cfg : Config) (df : DataFrame) : list bool :=
  map (fun r => Qltb (inject_Z (user_threshold cfg)) (amount r)) df.

Definition high_value_block (cfg : Config) (df : DataFrame)
    (flagged : list bool) : list bool :=
  if 0 <? user_threshold cfg
  then loc_set_true (high_value_mask cfg df) flagged
  else flagged.

(** ** Rapid repeated transactions (lines 107-112) *)

(** Order of timestamp cells under [sort_values]: ascending, [NaT] last. *)
Definition na_last_le (c1 c2 : option Z) : bool :=
  match c1, c2 with
  | Some t1, Some t2 => t1 <=? t2
  | Some _, None => true
  | None, Some _ => false
  | None, None => true
  end.

(** The key of [sort_values(['account_id','date'])]. *)
Definition account_date_le (r1 r2 : Txn) : bool :=
  match String.compare (account_id r1) (account_id r2) with
  | Lt => true
  | Eq => na_last_le (date r1) (date r2)
  | Gt => false
  end.

(** The key of a sort on the timestamp alone. *)
Definition date_only_le (r1 r2 : Txn) : bool :=
  na_last_le (date r1) (date r2).

Section Sorting.
Variable le : Txn -> Txn -> bool.

Fixpoint insert_row (r : Txn) (l : DataFrame) : DataFrame :=
  match l with
  | [] => [r]
  | y :: l' => if le r y then r :: y :: l' else y :: insert_row r l'
  end.

(** A stable sort of the rows by [le]. *)
Definition sort_values (df : DataFrame) : DataFrame :=
  fold_right insert_row [] df.
End Sorting.

(** The rows of one account, in frame order. *)
Definition group_of (df : DataFrame) (a : string) : DataFrame :=
  filter (fun r => String.eqb (account_id r) a) df.

(** Difference of two timestamp cells; [NaT] if either is. *)
Definition sub_dates (cur prev : option Z) : option Z :=
  match cur, prev with
  | Some t, Some p => Some (t - p)
  | _, _ => None
  end.

(** [groupby('account_id')['date'].diff()] followed by
    [.dt.total_seconds().fillna(np.inf)]: for each row the distance to the
    previous row of the same account, in frame order; [None] is [inf].
    [seen] holds the rows already passed, latest first. *)
Fixpoint groupby_diff (seen rows : list Txn) : list (option Z) :=
  match rows with
  | [] => []
  | r :: rest =>
      match find (fun p => String.eqb (account_id p) (account_id r)) seen with
      | Some p => sub_dates (date r) (date p)
      | None => None
      end :: groupby_diff (r :: seen) rest
  end.

(** [time_diff < 3600], the difference being kept in nanoseconds. *)
Definition is_rapid (d : option Z) : bool :=
  match d with
  | Some x => x <? 3600 * ns_per_second
  | None => false
  end.

(** [groupby('account_id')[col].sum()] at one account. *)
Definition groupby_sum (rows : list Txn) (col : list bool) (a : string) : Z :=
  len (filter (fun rb : Txn * bool => String.eqb (account_id (fst rb)) a && snd rb)
              (combine rows col)).

Definition accounts (rows : list Txn) : list string :=
  nodup string_dec (map account_id rows).

Definition isin (x : string) (l : list string) : bool :=
  existsb (String.eqb x) l.

Definition rapid_ids (cfg : Config) (df : DataFrame) : list string :=
  let df_sorted := sort_values account_date_le df in
  let time_diff := groupby_diff [] df_sorted in
  let rapid_flag := map is_rapid time_diff in
  filter (fun a => rapid_txn_threshold cfg <=? groupby_sum df_sorted rapid_flag a)
         (accounts df_sorted).

Definition rapid_mask (cfg : Config) (df : DataFrame) : list bool :=
  map (fun r => isin (account_id r) (rapid_ids cfg df)) df.

Definition rapid_block (cfg : Config) (df : DataFrame)
    (flagged : list bool) : list bool :=
  if (0 <? rapid_txn_threshold cfg) && has_dates df
  then loc_set_true (rapid_mask cfg df) flagged
  else flagged.

(** ** Unusually large relative to the account mean (lines 115-117) *)

(** [groupby('account_id')['amount'].transform(f)] at one row. *)
Definition transform {A : Type} (f : list Q -> A) (df : DataFrame) (r : Txn) : A :=
  f (map amount (group_of df (account_id r))).

(** The cell of [acct_mean] (line 115). *)
Definition acct_mean (df : DataFrame) (r : Txn) : option num :=
  transform group_mean df r.

(** The cell of [acct_std], after [fillna(0)] (line 116). *)
Definition acct_std (df : DataFrame) (r : Txn) : num :=
  fillna_zero (transform group_std df r).

(** The comparison [amount > acct_mean + 2*acct_std] on three cells. *)
Definition exceeds (x m s : num) : bool :=
  fgt x (fadd m (fmul ftwo s)).

(** Line 117 at one row. *)
Definition outlier_flag (df : DataFrame) (r : Txn) : bool :=
  match acct_mean df r with
  | Some m => exceeds (of_cell (amount r)) m (acct_std df r)
  | None => false
  end.

Definition outlier_mask (df : DataFrame) : list bool :=
  map (outlier_flag df) df.

Definition outlier_block (df : DataFrame) (flagged : list bool) : list bool :=
  loc_set_true (outlier_mask df) flagged.

(** ** Weekend transactions (lines 120-122) *)

(** [df['date'].dt.weekday >= 5]; the weekday of [NaT] is [NaN], and the
    comparison is then false. *)
Definition weekend (r : Txn) : bool :=
  match date r with
  | Some t => 5 <=? weekday t
  | None => false
  end.

Definition weekend_block (df : DataFrame) (flagged : list bool) : list bool :=
  if has_dates df then loc_set_true (map weekend df) flagged else flagged.

(** ** Risky merchants (lines 125-126) *)

Definition risky_mask (cfg : Config) (df : DataFrame) : list bool :=
  map (fun r => isin (merchant r) (risky_merchants cfg)) df.

Definition risky_block (cfg : Config) (df : DataFrame)
    (flagged : list bool) : list bool :=
  match risky_merchants cfg with
  | [] => flagged
  | _ :: _ => loc_set_true (risky_mask cfg df) flagged
  end.

(** ** The fraud-detection block (lines 100-126) *)

Definition fraud_detection (cfg : Config) (df : DataFrame) : list bool :=
  let flagged := repeat false (List.length df) in
  let flagged := high_value_block cfg df flagged in
  let flagged := rapid_block cfg df flagged in
  let flagged := outlier_block df flagged in
  let flagged := weekend_block df flagged in
  risky_block cfg df flagged.

(** What one detector alone writes into a column that starts all false. *)
Definition alone (block : list bool -> list bool) (df : DataFrame) : list bool :=
  block (repeat false (List.length df)).

(** The cell of a boolean column at a position. *)
Definition cell (col : list bool) (i : nat) : bool := nth i col false.

(** ** The whole evaluation (lines 82-129) *)

Record Report : Type := mkReport {
  total_txn   : Z;
  avg_amount  : option num;
  max_amount  : option Q;
  min_amount  : option Q;
  rows        : DataFrame;
  flagged     : list bool;
  flagged_df  : DataFrame;
  flagged_pct : Q
}.

(** [df[df['flagged']]]. *)
Definition select (df : DataFrame) (col : list bool) : DataFrame :=
  map fst (filter snd (combine df col)).

Definition evaluate (cfg : Config) (df0 : DataFrame) : outcome Report :=
  let df := date_filter cfg df0 in
  let total := len df in
  let avg := series_mean (map amount df) in
  let mx := series_max (map amount df) in
  let mn := series_min (map amount df) in
  let col := fraud_detection cfg df in
  let fdf := select df col in
  match truediv (len fdf) total with
  | Returned q => Returned (mkReport total avg mx mn df col fdf (q * 100)%Q)
  | ZeroDivisionError => ZeroDivisionError
  end.

(** The configuration with another list of risky merchants. *)
Definition with_risky (cfg : Config) (ms : list string) : Config :=
  mkConfig (start_date cfg) (end_date cfg) (user_threshold cfg)
           (rapid_txn_threshold cfg) ms.

(** ** The rapid-succession rule, account by account

    A second reading of lines 107-112, following the prose description of
    the rule: take one account's rows, order them by timestamp, take the
    distance of each row to its predecessor (none for the first), count the
    distances under an hour, and compare with the threshold. *)

Fixpoint deltas (prev : option Txn) (rows : list Txn) : list (option Z) :=
  match rows with
  | [] => []
  | r :: rest =>
      match prev with
      | Some p => sub_dates (date r) (date p)
      | None => None
      end :: deltas (Some r) rest
  end.

Definition count_rapid (ds : list (option Z)) : Z := len (filter is_rapid ds).

Definition account_rapid_count (df : DataFrame) (a : string) : Z :=
  count_rapid (deltas None (sort_values date_only_le (group_of df a))).

Definition rapid_rule (cfg : Config) (df : DataFrame) (r : Txn) : bool :=
  (0 <? rapid_txn_threshold cfg) && has_dates df
  && (rapid_txn_threshold cfg <=? account_rapid_count df (account_id r)).

End Pipeline.

(** ** Sample inputs *)

(** 2024-01-01, a Monday, as a day number. *)
Definition day_2024_01_01 : Z := 19723.

Definition txn (a : string) (x : Q) (t : option Z) : Txn :=
  mkTxn x a "purchase" "unknown" t.

(** Three rows of account A, ten minutes apart, and a threshold of two
    rapid transactions. *)
Definition scenario_df : DataFrame :=
  [ txn "A" 100 (Some (at_time day_2024_01_01 10 0 0));
    txn "A" 150 (Some (at_time day_2024_01_01 10 10 0));
    txn "A" 140 (Some (at_time day_2024_01_01 10 20 0)) ].

Definition scenario_cfg : Config := mkConfig None None 0 2 [].

(** The same account with a fourth row that has no timestamp, and a second
    account with one row. *)
Definition missing_date_df : DataFrame :=
  scenario_df ++ [ txn "A" 20 None;
                   txn "B" 30 (Some (at_time day_2024_01_01 12 0 0)) ].

(** Every switch off: no dates, thresholds 0, no risky merchant. *)
Definition all_off_cfg : Config := mkConfig None None 0 0 [].

(** One account without timestamps: nine amounts of 10 and one of 1000. *)
Definition undated_df : DataFrame :=
  map (fun x => txn "A" x None) [10; 10; 10; 10; 10; 10; 10; 10; 10; 1000]%Q.

(** A date window of February 2024, which holds none of the scenario's
    rows. *)
Definition february_cfg : Config :=
  mkConfig (Some (day_2024_01_01 + 31)) (Some (day_2024_01_01 + 59)) 0 0 [].

(** A window whose start lies after its end. *)
Definition reversed_cfg : Config :=
  mkConfig (Some (day_2024_01_01 + 1)) (Some day_2024_01_01) 0 0 [].

(** A window from 2024-01-01 to 2024-01-02. *)
Definition january_cfg : Config :=
  mkConfig (Some day_2024_01_01) (Some (day_2024_01_01 + 1)) 0 0 [].

(** Rows stamped exactly at the two bounds of that window, one a second
    past the end, and one without a timestamp. *)
Definition bounds_df : DataFrame :=
  [ txn "A" 1 (Some (to_datetime day_2024_01_01));
    txn "A" 2 (Some (to_datetime (day_2024_01_01 + 1)));
    txn "A" 3 (Some (at_time (day_2024_01_01 + 1) 0 0 1));
    txn "B" 4 None ].

(** Amounts 500, 1500, 999 and 1000 against a threshold of 1000. *)
Definition amounts_df : DataFrame :=
  [ txn "A" 500 None; txn "B" 1500 None; txn "C" 999 None; txn "D" 1000 None ].

Definition threshold_1000_cfg : Config := mkConfig None None 1000 0 [].

(** A Friday, a Saturday, a Sunday, a Monday and a row without timestamp. *)
Definition week_df : DataFrame :=
  [ txn "A" 1 (Some (at_time (day_2024_01_01 + 4) 23 59 59));
    txn "A" 2 (Some (at_time (day_2024_01_01 + 5) 0 0 0));
    txn "A" 3 (Some (at_time (day_2024_01_01 + 6) 23 59 59));
    txn "A" 4 (Some (at_time (day_2024_01_01 + 7) 0 0 0));
    txn "A" 5 None ].

(** Two merchants, one of them listed as risky. *)
Definition merchants_df : DataFrame :=
  [ mkTxn 5 "A" "purchase" "casino" None;
    mkTxn 6 "B" "purchase" "grocer" None ].

Definition casino_cfg : Config := mkConfig None None 0 0 ["casino"%string].

(** One account without timestamps and three equal amounts of 0.7. *)
Definition equal_amounts_df : DataFrame :=
  map (fun x => txn "A" x None) [7 # 10; 7 # 10; 7 # 10]%Q.

(** One account without timestamps: the amount 8, then 3, 3 and four
    amounts of 0. *)
Definition skewed_df : DataFrame :=
  map (fun x => txn "A" x None) [8; 3; 3; 0; 0; 0; 0]%Q.

(** ** The options of the merchant selector (line 79) *)

(** [Series.unique()]: the distinct values, in order of first appearance. *)
Fixpoint unique (l : list string) : list string :=
  match l with
  | [] => []
  | x :: l' => x :: filter (fun y => negb (String.eqb y x)) (unique l')
  end.

Definition merchant_options (df : DataFrame) : list string :=
  unique (map merchant df).

(** ** Column mapping and cleaning (lines 51-71)

    The uploaded table after the renaming of line 51, the mapped columns
    being distinct.  A cell of the amount or the date column is missing,
    or holds something [pd.to_numeric] (resp. [pd.to_datetime]) converts to
    a value, or holds something it cannot convert and, under
    [errors='coerce'], turns into [NaN] (resp. [NaT]).  [raw_other] tells
    whether some column that is not mapped has a value in the row. *)

Inductive Cell (A : Type) : Type :=
| Missing
| Value (a : A)
| Unparsable.
Arguments Missing {A}.
Arguments Value {A} a.
Arguments Unparsable {A}.

Record RawRow : Type := mkRaw {
  raw_amount   : Cell Q;
  raw_account  : option string;
  raw_type     : option string;
  raw_merchant : option string;
  raw_date     : Cell Z;
  raw_other    : bool
}.

(** Which of the two optional columns the user mapped (lines 43-44). *)
Record Mapping : Type := mkMapping {
  merchant_col : bool;
  date_col     : bool
}.

(** A row after cleaning.  The merchant can still be missing: line 55
    fills it only when no merchant column is mapped. *)
Record CleanRow : Type := mkClean {
  c_amount   : Q;
  c_account  : string;
  c_type     : string;
  c_merchant : option string;
  c_date     : option Z
}.

Inductive Column : Type :=
| ColAmount | ColType | ColAccount | ColDate | ColMerchant.

Inductive prepared : Type :=
| Prepared (df : list CleanRow) (rows_dropped : Z)
| KeyError (c : Column).

Definition is_missing {A : Type} (c : Cell A) : bool :=
  match c with Missing => true | _ => false end.

Definition is_none {A : Type} (o : option A) : bool :=
  match o with None => true | Some _ => false end.

(** Lines 52-55: without a merchant column, every row gets the merchant
    "unknown". *)
Definition assign_merchant (mp : Mapping) (df : list RawRow) : list RawRow :=
  if merchant_col mp then df
  else map (fun r => mkRaw (raw_amount r) (raw_account r) (raw_type r)
                           (Some "unknown"%string) (raw_date r) (raw_other r))
           df.

(** A row all of whose cells are missing; without a mapped date column
    there is no date cell to look at. *)
Definition row_all_na (mp : Mapping) (r : RawRow) : bool :=
  is_missing (raw_amount r) && is_none (raw_account r)
  && is_none (raw_type r) && is_none (raw_merchant r)
  && (if date_col mp then is_missing (raw_date r) else true)
  && negb (raw_other r).

(** Line 60 keeps a column exactly when one of its cells has a value. *)
Definition column_kept (has_value : RawRow -> bool) (df : list RawRow) : bool :=
  existsb has_value df.

(** [pd.to_numeric(..., errors='coerce')] and [pd.to_datetime(...,
    errors='coerce')] on one cell. *)
Definition coerce {A : Type} (c : Cell A) : option A :=
  match c with Value a => Some a | _ => None end.

(** [fillna('unknown')] on one cell. *)
Definition fillna_unknown (o : option string) : string :=
  match o with Some s => s | None => "unknown"%string end.

(** Lines 61-68 on one row that survives: [None] when line 62 drops it. *)
Definition finish_row (mp : Mapping) (r : RawRow) : option CleanRow :=
  match coerce (raw_amount r) with
  | Some q =>
      Some (mkClean q (fillna_unknown (raw_account r))
                    (fillna_unknown (raw_type r)) (raw_merchant r)
                    (if date_col mp then coerce (raw_date r) else None))
  | None => None
  end.

Fixpoint keep_some {A B : Type} (f : A -> option B) (l : list A) : list B :=
  match l with
  | [] => []
  | x :: l' =>
      match f x with
      | Some y => y :: keep_some f l'
      | None => keep_some f l'
      end
  end.

(** Lines 52-79, up to the first use of the merchant column.  A column
    that line 60 removed raises [KeyError] where the script next reads it:
    the amount at line 61, the type at line 63, the account at line 64, the
    date column at line 66, the merchant at line 79. *)
Definition prepare (mp : Mapping) (df0 : list RawRow) : prepared :=
  let df := assign_merchant mp df0 in
  let initial_rows := len df in
  let df := filter (fun r => negb (row_all_na mp r)) df in
  let kept_amount := column_kept (fun r => negb (is_missing (raw_amount r))) df in
  let kept_type := column_kept (fun r => negb (is_none (raw_type r))) df in
  let kept_account := column_kept (fun r => negb (is_none (raw_account r))) df in
  let kept_date := column_kept (fun r => negb (is_missing (raw_date r))) df in
  let kept_merchant := column_kept (fun r => negb (is_none (raw_merchant r))) df in
  if negb kept_amount then KeyError ColAmount
  else
    let cleaned := keep_some (finish_row mp) df in
    if negb kept_type then KeyError ColType
    else if negb kept_account then KeyError ColAccount
    else if date_col mp && negb kept_date then KeyError ColDate
    else
      let rows_dropped := initial_rows - len cleaned in
      if negb kept_merchant then KeyError ColMerchant
      else Prepared cleaned rows_dropped.

(** The cleaned rows as a frame of the detectors, when no merchant is
    missing. *)
Definition to_txn (c : CleanRow) : option Txn :=
  match c_merchant c with
  | Some m => Some (mkTxn (c_amount c) (c_account c) (c_type c) m (c_date c))
  | None => None
  end.

Fixpoint to_frame (l : list CleanRow) : option DataFrame :=
  match l with
  | [] => Some []
  | c :: l' =>
      match to_txn c, to_frame l' with
      | Some r, Some df => Some (r :: df)
      | _, _ => None
      end
  end.

(** ** Sample uploads and settings *)

(** Four uploaded rows: a complete one, one with a text for an amount, an
    entirely empty one, and one with an amount but no account, no merchant
    and a date that does not parse. *)
Definition raw_upload : list RawRow :=
  [ mkRaw (Value 100%Q) (Some "A"%string) (Some "debit"%string)
          (Some "shop"%string) (Value (at_time day_2024_01_01 10 0 0)) false;
    mkRaw Unparsable (Some "B"%string) None None Missing true;
    mkRaw Missing None None None Missing false;
    mkRaw (Value 20%Q) None (Some "credit"%string) None Unparsable false ].

(** The same rows with other values in the columns that are not mapped. *)
Definition raw_upload_other : list RawRow :=
  [ mkRaw (Value 100%Q) (Some "A"%string) (Some "debit"%string)
          (Some "shop"%string) (Value (at_time day_2024_01_01 10 0 0)) true;
    mkRaw Unparsable (Some "B"%string) None None Missing false;
    mkRaw Missing None None None Missing true;
    mkRaw (Value 20%Q) None (Some "credit"%string) None Unparsable true ].

Definition both_mapped : Mapping := mkMapping true true.
Definition none_mapped : Mapping := mkMapping false false.

Definition low_thresholds_cfg : Config := mkConfig None None 500 1 [].
Definition high_thresholds_cfg : Config := mkConfig None None 1000 2 [].

(** A window from a week before 2024-01-01 to the end of February. *)
Definition wide_cfg : Config :=
  mkConfig (Some (day_2024_01_01 - 7)) (Some (day_2024_01_01 + 59)) 0 0 [].

(** The scenario with a row of another account added. *)
Definition other_account_df : DataFrame :=
  scenario_df ++ [ txn "B" 30 (Some (at_time day_2024_01_01 12 0 0)) ].

(** ** Tactics *)

(** An equation between two floats, as an equation between their
    specifications. *)
Ltac to_spec :=
  apply FloatAxioms.Prim2SF_inj;
  rewrite ?FloatAxioms.add_spec, ?FloatAxioms.sub_spec, ?FloatAxioms.mul_spec,
    ?FloatAxioms.div_spec, ?FloatAxioms.sqrt_spec.

(** ** Facts about the helpers *)

Section Properties.
Context {F : Float64}.

Lemma has_dates_exists (df : DataFrame) :
  has_dates df = true <-> exists r t, In r df /\ date r = Some t.
Proof.
  unfold has_dates, isna_all. induction df as [|x df IH]; simpl.
  - split; [discriminate | intros (r & t & [] & _)].
  - rewrite negb_andb, orb_true_iff, IH. unfold isna. split.
    + intros [H | (r & t & Hin & Hd)].
      * destruct (date x) as [t|] eqn:E; [|discriminate].
        exists x, t. auto.
      * exists r, t. auto.
    + intros (r & t & [-> | Hin] & Hd).
      * left. now rewrite Hd.
      * right. eauto.
Qed.

Lemma has_dates_false (df : DataFrame) :
  has_dates df = false <-> forall r, In r df -> date r = None.
Proof.
  unfold has_dates, isna_all. rewrite negb_false_iff, forallb_forall.
  unfold isna. split; intros H r Hin; specialize (H r Hin);
    destruct (date r); congruence.
Qed.

Lemma in_window_spec (s e : Z) (r : Txn) :
  in_window s e r = true <->
  exists t, date r = Some t /\ to_datetime s <= t <= to_datetime e.
Proof.
  unfold in_window, date_ge, date_le. destruct (date r) as [t|].
  - rewrite andb_true_iff, !Z.leb_le. split.
    + intros [H1 H2]. exists t. auto.
    + intros (t' & [= <-] & H). exact H.
  - split; [discriminate | intros (t & [=] & _)].
Qed.

(** ** Columns and cells *)

Lemma cell_repeat_false (n i : nat) : cell (repeat false n) i = false.
Proof.
  unfold cell. revert i. induction n as [|n IH]; intros [|i]; simpl; auto.
Qed.

Lemma cell_map {A : Type} (f : A -> bool) (l : list A) (i : nat) (x : A) :
  nth_error l i = Some x -> cell (map f l) i = f x.
Proof.
  unfold cell. revert i. induction l as [|y l IH]; intros [|i]; simpl;
    try discriminate.
  - now intros [= ->].
  - apply IH.
Qed.

Lemma cell_out_of_range (col : list bool) (i : nat) :
  (List.length col <= i)%nat -> cell col i = false.
Proof. intros H. unfold cell. now apply nth_overflow. Qed.

Lemma loc_set_true_length (mask flagged : list bool) :
  List.length mask = List.length flagged ->
  List.length (loc_set_true mask flagged) = List.length flagged.
Proof.
  intros H. unfold loc_set_true.
  rewrite length_map, length_combine, H. apply Nat.min_id.
Qed.

Lemma cell_loc_set_true (mask flagged : list bool) (i : nat) :
  List.length mask = List.length flagged ->
  cell (loc_set_true mask flagged) i = cell mask i || cell flagged i.
Proof.
  unfold cell, loc_set_true. revert flagged i.
  induction mask as [|m mask IH]; intros [|f flagged] i H; simpl in H;
    try discriminate.
  - now destruct i.
  - destruct i as [|i]; simpl.
    + now destruct m.
    + apply IH. now injection H.
Qed.

(** ** Each block ORs its mask into the column *)

Section Blocks.
Variable cfg : Config.
Variable df : DataFrame.
Variable flagged : list bool.
Hypothesis Hlen : List.length flagged = List.length df.

Lemma high_value_block_length :
  List.length (high_value_block cfg df flagged) = List.length df.
Proof.
  unfold high_value_block. destruct (0 <? user_threshold cfg); auto.
  rewrite loc_set_true_length; auto.
  unfold high_value_mask. now rewrite length_map.
Qed.

Lemma rapid_block_length :
  List.length (rapid_block cfg df flagged) = List.length df.
Proof.
  unfold rapid_block.
  destruct ((0 <? rapid_txn_threshold cfg) && has_dates df); auto.
  rewrite loc_set_true_length; auto.
  unfold rapid_mask. now rewrite length_map.
Qed.

Lemma outlier_block_length :
  List.length (outlier_block df flagged) = List.length df.
Proof.
  unfold outlier_block. rewrite loc_set_true_length; auto.
  unfold outlier_mask. now rewrite length_map.
Qed.

Lemma weekend_block_length :
  List.length (weekend_block df flagged) = List.length df.
Proof.
  unfold weekend_block. destruct (has_dates df); auto.
  rewrite loc_set_true_length; auto. now rewrite length_map.
Qed.

Lemma risky_block_length :
  List.length (risky_block cfg df flagged) = List.length df.
Proof.
  unfold risky_block. destruct (risky_merchants cfg); auto.
  rewrite loc_set_true_length; auto.
  unfold risky_mask. now rewrite length_map.
Qed.

Variable i : nat.
Variable r : Txn.
Hypothesis Hrow : nth_error df i = Some r.

Lemma cell_high_value_block :
  cell (high_value_block cfg df flagged) i
  = ((0 <? user_threshold cfg)
     && Qltb (inject_Z (user_threshold cfg)) (amount r))
    || cell flagged i.
Proof.
  unfold high_value_block. destruct (0 <? user_threshold cfg); auto.
  rewrite cell_loc_set_true.
  - unfold high_value_mask. now rewrite (cell_map _ _ _ _ Hrow).
  - unfold high_value_mask. now rewrite length_map.
Qed.

Lemma cell_rapid_block :
  cell (rapid_block cfg df flagged) i
  = ((0 <? rapid_txn_threshold cfg) && has_dates df
     && isin (account_id r) (rapid_ids cfg df))
    || cell flagged i.
Proof.
  unfold rapid_block.
  destruct ((0 <? rapid_txn_threshold cfg) && has_dates df); auto.
  rewrite cell_loc_set_true.
  - unfold rapid_mask. now rewrite (cell_map _ _ _ _ Hrow).
  - unfold rapid_mask. now rewrite length_map.
Qed.

Lemma cell_outlier_block :
  cell (outlier_block df flagged) i = outlier_flag df r || cell flagged i.
Proof.
  unfold outlier_block. rewrite cell_loc_set_true.
  - unfold outlier_mask. now rewrite (cell_map _ _ _ _ Hrow).
  - unfold outlier_mask. now rewrite length_map.
Qed.

Lemma cell_weekend_block :
  cell (weekend_block df flagged) i
  = (has_dates df && weekend r) || cell flagged i.
Proof.
  unfold weekend_block. destruct (has_dates df); auto.
  rewrite cell_loc_set_true.
  - now rewrite (cell_map _ _ _ _ Hrow).
  - now rewrite length_map.
Qed.

Lemma cell_risky_block :
  cell (risky_block cfg df flagged) i
  = isin (merchant r) (risky_merchants cfg) || cell flagged i.
Proof.
  unfold risky_block. destruct (risky_merchants cfg) as [|m ms] eqn:E; auto.
  rewrite cell_loc_set_true.
  - unfold risky_mask. rewrite (cell_map _ _ _ _ Hrow). now rewrite E.
  - unfold risky_mask. now rewrite length_map.
Qed.
End Blocks.

(** ** Order on amounts *)

Lemma Qltb_lt (x y : Q) : Qltb x y = true <-> (x < y)%Q.
Proof.
  unfold Qltb. rewrite negb_true_iff. split.
  - intros H. apply Qnot_le_lt. intros Hle.
    apply Qle_bool_iff in Hle. congruence.
  - intros H. destruct (Qle_bool y x) eqn:E; auto.
    apply Qle_bool_iff in E. exfalso. now apply (Qlt_not_le x y).
Qed.

Lemma Qltb_irrefl (x y : Q) : (x == y)%Q -> Qltb x y = false.
Proof.
  intros H. destruct (Qltb x y) eqn:E; auto.
  apply Qltb_lt in E. rewrite H in E. now apply Qlt_irrefl in E.
Qed.

(** ** The date filter *)

Lemma date_filter_applied (cfg : Config) (df : DataFrame) (s e : Z) :
  start_date cfg = Some s -> end_date cfg = Some e -> has_dates df = true ->
  date_filter cfg df = filter (in_window s e) df.
Proof. intros Hs He Hd. unfold date_filter. now rewrite Hs, He, Hd. Qed.

Lemma date_filter_skipped (cfg : Config) (df : DataFrame) :
  start_date cfg = None \/ end_date cfg = None \/ has_dates df = false ->
  date_filter cfg df = df.
Proof.
  unfold date_filter. intros [H | [H | H]]; rewrite H.
  - reflexivity.
  - now destruct (start_date cfg).
  - now destruct (start_date cfg), (end_date cfg).
Qed.

Lemma to_datetime_lt (s e : Z) : e < s -> to_datetime e < to_datetime s.
Proof. unfold to_datetime, ns_per_day, ns_per_second. lia. Qed.

Lemma filter_none {A : Type} (f : A -> bool) (l : list A) :
  (forall x, In x l -> f x = false) -> filter f l = [].
Proof.
  induction l as [|x l IH]; simpl; intros H; auto.
  rewrite (H x) by auto. apply IH. auto.
Qed.

(** C6.  With both bounds given and at least one timestamp in the frame, the
    date filter keeps, in frame order, exactly the rows whose timestamp lies
    between midnight of the start date and midnight of the end date, both
    ends included; a row stamped exactly at either bound is kept; with the
    start after the end nothing is kept.  With a bound missing or no
    timestamp at all the frame is returned as it is.  The filter is a total
    function: no input makes it fail. *)
Theorem date_filter_inclusive_window (cfg : Config) (df : DataFrame) :
  (forall s e,
      start_date cfg = Some s -> end_date cfg = Some e ->
      has_dates df = true ->
      date_filter cfg df = filter (in_window s e) df
      /\ (forall r, In r (date_filter cfg df) <->
                    In r df /\ exists t, date r = Some t
                                 /\ to_datetime s <= t <= to_datetime e)
      /\ (forall r, In r df -> s <= e ->
                    date r = Some (to_datetime s)
                    \/ date r = Some (to_datetime e) ->
                    In r (date_filter cfg df))
      /\ (e < s -> date_filter cfg df = []))
  /\ (start_date cfg = None \/ end_date cfg = None \/ has_dates df = false ->
      date_filter cfg df = df).
Proof.
  split; [|apply date_filter_skipped].
  intros s e Hs He Hd. rewrite (date_filter_applied _ _ _ _ Hs He Hd).
  split; [reflexivity|]. split; [|split].
  - intros r. rewrite filter_In, in_window_spec. reflexivity.
  - intros r Hin Hse Hr. apply filter_In. split; auto.
    apply in_window_spec.
    assert (to_datetime s <= to_datetime e)
      by (unfold to_datetime, ns_per_day, ns_per_second; lia).
    destruct Hr as [Hr | Hr]; eexists; (split; [exact Hr | lia]).
  - intros Hlt. apply filter_none. intros r _.
    destruct (in_window s e r) eqn:E; auto.
    apply in_window_spec in E. destruct E as (t & _ & H).
    apply to_datetime_lt in Hlt. lia.
Qed.

Lemma has_dates_notna (df : DataFrame) :
  has_dates (filter notna df) = has_dates df.
Proof.
  unfold has_dates, isna_all, notna. f_equal.
  induction df as [|x df IH]; simpl; auto.
  destruct (isna x) eqn:E; simpl; auto. now rewrite E, IH.
Qed.

Lemma in_window_notna (s e : Z) (r : Txn) :
  in_window s e r = true -> notna r = true.
Proof.
  unfold in_window, notna, isna, date_ge. now destruct (date r).
Qed.

Lemma filter_filter_absorb {A : Type} (f g : A -> bool) (l : list A) :
  (forall x, f x = true -> g x = true) ->
  filter f (filter g l) = filter f l.
Proof.
  intros H. induction l as [|x l IH]; simpl; auto.
  destruct (g x) eqn:Eg; simpl.
  - now rewrite IH.
  - destruct (f x) eqn:Ef; auto. apply H in Ef. congruence.
Qed.

(** C10.  Whenever the date filter is applied (both bounds given, some
    timestamp present), no row without a timestamp survives it; the filtered
    frame, and with it the whole evaluation (metrics and flags), is the same
    as if those rows had never been in the input. *)
Theorem date_filter_drops_missing_dates
    (cfg : Config) (df : DataFrame) (s e : Z) :
  start_date cfg = Some s -> end_date cfg = Some e -> has_dates df = true ->
  (forall r, In r df -> date r = None -> ~ In r (date_filter cfg df))
  /\ (forall r, In r (date_filter cfg df) -> date r <> None)
  /\ date_filter cfg df = date_filter cfg (filter notna df)
  /\ evaluate cfg df = evaluate cfg (filter notna df).
Proof.
  intros Hs He Hd.
  assert (Hsurv : forall r, In r (date_filter cfg df) -> date r <> None).
  { intros r Hin. rewrite (date_filter_applied _ _ _ _ Hs He Hd) in Hin.
    apply filter_In in Hin. destruct Hin as [_ Hw].
    apply in_window_spec in Hw. destruct Hw as (t & Ht & _). congruence. }
  assert (Heq : date_filter cfg df = date_filter cfg (filter notna df)).
  { rewrite (date_filter_applied _ _ _ _ Hs He Hd).
    rewrite (date_filter_applied cfg (filter notna df) s e Hs He)
      by now rewrite has_dates_notna.
    symmetry. apply filter_filter_absorb. apply in_window_notna. }
  repeat split; auto.
  - intros r _ Hn Hin. now apply (Hsurv r Hin).
  - unfold evaluate. now rewrite <- Heq.
Qed.

(** ** The high-value detector *)

Lemma cell_high_value_alone (cfg : Config) (df : DataFrame) (i : nat) (r : Txn) :
  nth_error df i = Some r ->
  cell (alone (high_value_block cfg df) df) i
  = (0 <? user_threshold cfg)
    && Qltb (inject_Z (user_threshold cfg)) (amount r).
Proof.
  intros Hrow. unfold alone.
  rewrite (cell_high_value_block cfg df _ (repeat_length _ _) i r Hrow).
  now rewrite cell_repeat_false, orb_false_r.
Qed.

(** C5.  With a positive amount threshold the high-value detector flags a
    row exactly when its amount is strictly above the threshold, so a row
    whose amount equals the threshold is not flagged; with a threshold of
    zero or less it flags nothing; and the verdict on a row depends on that
    row alone, whatever frame and position it sits in. *)
Theorem high_value_strict_per_record
    (cfg : Config) (df : DataFrame) (i : nat) (r : Txn) :
  nth_error df i = Some r ->
  (0 < user_threshold cfg ->
     (cell (alone (high_value_block cfg df) df) i = true
      <-> (inject_Z (user_threshold cfg) < amount r)%Q)
     /\ ((amount r == inject_Z (user_threshold cfg))%Q ->
         cell (alone (high_value_block cfg df) df) i = false))
  /\ (user_threshold cfg <= 0 ->
      cell (alone (high_value_block cfg df) df) i = false)
  /\ (forall df' j, nth_error df' j = Some r ->
      cell (alone (high_value_block cfg df') df') j
      = cell (alone (high_value_block cfg df) df) i).
Proof.
  intros Hrow. rewrite (cell_high_value_alone _ _ _ _ Hrow).
  split; [|split].
  - intros Hpos. apply Z.ltb_lt in Hpos. rewrite Hpos. simpl. split.
    + apply Qltb_lt.
    + intros Heq. apply Qltb_irrefl. now symmetry.
  - intros Hle. apply Z.ltb_ge in Hle. now rewrite Hle.
  - intros df' j Hrow'. now rewrite (cell_high_value_alone _ _ _ _ Hrow').
Qed.

(** ** The weekend detector *)

Lemma weekday_range (t : Z) : 0 <= weekday t < 7.
Proof. unfold weekday. apply Z.mod_pos_bound. lia. Qed.

Lemma weekday_epoch : weekday 0 = 3.
Proof. reflexivity. Qed.

Lemma weekday_next_day (t : Z) :
  weekday (t + ns_per_day) = (weekday t + 1) mod 7.
Proof.
  unfold weekday.
  replace (t + ns_per_day) with (t + 1 * ns_per_day) by lia.
  rewrite Z.div_add by (unfold ns_per_day, ns_per_second; lia).
  replace (t / ns_per_day + 1 + 3) with (t / ns_per_day + 3 + 1) by lia.
  rewrite Z.add_mod_idemp_l by lia. reflexivity.
Qed.

Lemma weekday_same_day (d ofs : Z) :
  0 <= ofs < ns_per_day -> weekday (to_datetime d + ofs) = (d + 3) mod 7.
Proof.
  intros H. unfold weekday, to_datetime.
  assert (0 < ns_per_day) by (unfold ns_per_day, ns_per_second; lia).
  replace (d * ns_per_day + ofs) with (ofs + d * ns_per_day) by lia.
  rewrite Z.div_add by lia. rewrite (Z.div_small ofs) by lia.
  reflexivity.
Qed.

Lemma cell_weekend_alone (df : DataFrame) (i : nat) (r : Txn) :
  nth_error df i = Some r ->
  cell (alone (weekend_block df) df) i = has_dates df && weekend r.
Proof.
  intros Hrow. unfold alone.
  rewrite (cell_weekend_block df _ (repeat_length _ _) i r Hrow).
  now rewrite cell_repeat_false, orb_false_r.
Qed.

(** C8.  When some row of the frame has a timestamp, the weekend detector
    flags exactly the rows whose timestamp has weekday index 5 or 6
    (Saturday or Sunday, Monday being 0); rows without a timestamp are not
    flagged by it; and when no row has a timestamp it flags nothing. *)
Theorem weekend_saturday_sunday (df : DataFrame) (i : nat) (r : Txn) :
  nth_error df i = Some r ->
  (has_dates df = true ->
     (cell (alone (weekend_block df) df) i = true
      <-> exists t, date r = Some t /\ 5 <= weekday t)
     /\ (cell (alone (weekend_block df) df) i = true
         <-> exists t, date r = Some t /\ (weekday t = 5 \/ weekday t = 6)))
  /\ (has_dates df = false ->
      cell (alone (weekend_block df) df) i = false).
Proof.
  intros Hrow. rewrite (cell_weekend_alone _ _ _ Hrow).
  assert (Hw : weekend r = true <-> exists t, date r = Some t /\ 5 <= weekday t).
  { unfold weekend. destruct (date r) as [t|].
    - rewrite Z.leb_le. split.
      + intros H. now exists t.
      + now intros (t' & [= <-] & H).
    - split; [discriminate | now intros (t & [=] & _)]. }
  split.
  - intros Hd. rewrite Hd. simpl. split; [exact Hw|].
    rewrite Hw. split; intros (t & Ht & H); exists t; split; auto.
    + pose proof (weekday_range t). lia.
    + lia.
  - intros Hd. now rewrite Hd.
Qed.

(** ** Aggregation *)

Lemma cell_rapid_alone (cfg : Config) (df : DataFrame) (i : nat) (r : Txn) :
  nth_error df i = Some r ->
  cell (alone (rapid_block cfg df) df) i
  = (0 <? rapid_txn_threshold cfg) && has_dates df
    && isin (account_id r) (rapid_ids cfg df).
Proof.
  intros Hrow. unfold alone.
  rewrite (cell_rapid_block cfg df _ (repeat_length _ _) i r Hrow).
  now rewrite cell_repeat_false, orb_false_r.
Qed.

Lemma cell_outlier_alone (df : DataFrame) (i : nat) (r : Txn) :
  nth_error df i = Some r ->
  cell (alone (outlier_block df) df) i = outlier_flag df r.
Proof.
  intros Hrow. unfold alone.
  rewrite (cell_outlier_block df _ (repeat_length _ _) i r Hrow).
  now rewrite cell_repeat_false, orb_false_r.
Qed.

Lemma cell_risky_alone (cfg : Config) (df : DataFrame) (i : nat) (r : Txn) :
  nth_error df i = Some r ->
  cell (alone (risky_block cfg df) df) i
  = isin (merchant r) (risky_merchants cfg).
Proof.
  intros Hrow. unfold alone.
  rewrite (cell_risky_block cfg df _ (repeat_length _ _) i r Hrow).
  now rewrite cell_repeat_false, orb_false_r.
Qed.

Lemma fraud_detection_length (cfg : Config) (df : DataFrame) :
  List.length (fraud_detection cfg df) = List.length df.
Proof.
  unfold fraud_detection.
  apply risky_block_length, weekend_block_length, outlier_block_length,
    rapid_block_length, high_value_block_length, repeat_length.
Qed.

Lemma cell_fraud_detection (cfg : Config) (df : DataFrame) (i : nat) (r : Txn) :
  nth_error df i = Some r ->
  cell (fraud_detection cfg df) i
  = cell (alone (high_value_block cfg df) df) i
    || cell (alone (rapid_block cfg df) df) i
    || cell (alone (outlier_block df) df) i
    || cell (alone (weekend_block df) df) i
    || cell (alone (risky_block cfg df) df) i.
Proof.
  intros Hrow.
  rewrite (cell_high_value_alone _ _ _ _ Hrow), (cell_rapid_alone _ _ _ _ Hrow),
    (cell_outlier_alone _ _ _ Hrow), (cell_weekend_alone _ _ _ Hrow),
    (cell_risky_alone _ _ _ _ Hrow).
  unfold fraud_detection.
  rewrite (cell_risky_block cfg df _
             ltac:(apply weekend_block_length, outlier_block_length,
                     rapid_block_length, high_value_block_length,
                     repeat_length) i r Hrow).
  rewrite (cell_weekend_block df _
             ltac:(apply outlier_block_length, rapid_block_length,
                     high_value_block_length, repeat_length) i r Hrow).
  rewrite (cell_outlier_block df _
             ltac:(apply rapid_block_length, high_value_block_length,
                     repeat_length) i r Hrow).
  rewrite (cell_rapid_block cfg df _
             ltac:(apply high_value_block_length, repeat_length) i r Hrow).
  rewrite (cell_high_value_block cfg df _ (repeat_length _ _) i r Hrow).
  rewrite cell_repeat_false. btauto.
Qed.

Lemma isin_incl (x : string) (l l' : list string) :
  incl l l' -> isin x l = true -> isin x l' = true.
Proof.
  unfold isin. rewrite !existsb_exists. intros Hincl (y & Hin & Hy).
  exists y. split; auto.
Qed.

Lemma row_or_out_of_range (df : DataFrame) (i : nat) :
  (exists r, nth_error df i = Some r) \/ (List.length df <= i)%nat.
Proof.
  destruct (nth_error df i) as [r|] eqn:E.
  - left. now exists r.
  - right. now apply nth_error_None.
Qed.

Lemma alone_length (block : list bool -> list bool) (df : DataFrame) :
  (forall flagged, List.length flagged = List.length df ->
                   List.length (block flagged) = List.length df) ->
  List.length (alone block df) = List.length df.
Proof. intros H. unfold alone. apply H, repeat_length. Qed.

Lemma rapid_ids_with_risky (cfg : Config) (ms : list string) (df : DataFrame) :
  rapid_ids (with_risky cfg ms) df = rapid_ids cfg df.
Proof. reflexivity. Qed.

(** C7.  The final flag of a row is the OR of what the five detectors write
    on their own (an inactive detector writes nothing); no detector block
    turns a flag that is already set back to false; and replacing the list
    of risky merchants by a larger one leaves the date filter as it was and
    keeps every flag that was set. *)
Theorem aggregation_is_monotone_or (cfg : Config) (df : DataFrame) (i : nat) :
  cell (fraud_detection cfg df) i
  = cell (alone (high_value_block cfg df) df) i
    || cell (alone (rapid_block cfg df) df) i
    || cell (alone (outlier_block df) df) i
    || cell (alone (weekend_block df) df) i
    || cell (alone (risky_block cfg df) df) i
  /\ (forall flagged,
        List.length flagged = List.length df -> cell flagged i = true ->
        cell (high_value_block cfg df flagged) i = true
        /\ cell (rapid_block cfg df flagged) i = true
        /\ cell (outlier_block df flagged) i = true
        /\ cell (weekend_block df flagged) i = true
        /\ cell (risky_block cfg df flagged) i = true)
  /\ (forall ms,
        incl (risky_merchants cfg) ms ->
        date_filter (with_risky cfg ms) df = date_filter cfg df
        /\ (cell (fraud_detection cfg df) i = true ->
            cell (fraud_detection (with_risky cfg ms) df) i = true)).
Proof.
  destruct (row_or_out_of_range df i) as [[r Hrow] | Hout].
  - split; [now apply cell_fraud_detection with (r := r)|]. split.
    + intros flagged Hlen Hset.
      rewrite (cell_high_value_block cfg df flagged Hlen i r Hrow),
        (cell_rapid_block cfg df flagged Hlen i r Hrow),
        (cell_outlier_block df flagged Hlen i r Hrow),
        (cell_weekend_block df flagged Hlen i r Hrow),
        (cell_risky_block cfg df flagged Hlen i r Hrow), Hset.
      now rewrite !orb_true_r.
    + intros ms Hincl. split; [reflexivity|].
      rewrite !(cell_fraud_detection _ _ _ _ Hrow).
      rewrite !(cell_high_value_alone _ _ _ _ Hrow),
        !(cell_rapid_alone _ _ _ _ Hrow), !(cell_risky_alone _ _ _ _ Hrow).
      rewrite rapid_ids_with_risky. simpl.
      rewrite !orb_true_iff. intros [H | H]; [now left|].
      right. now apply (isin_incl _ _ _ Hincl).
  - assert (Hfalse : forall col, List.length col = List.length df ->
                                 cell col i = false).
    { intros col Hlen. apply cell_out_of_range. lia. }
    split; [|split].
    + rewrite (Hfalse _ (fraud_detection_length cfg df)).
      rewrite !Hfalse; auto; apply alone_length; intros flagged Hlen.
      * now apply risky_block_length.
      * now apply weekend_block_length.
      * now apply outlier_block_length.
      * now apply rapid_block_length.
      * now apply high_value_block_length.
    + intros flagged Hlen Hset. rewrite (Hfalse _ Hlen) in Hset. discriminate.
    + intros ms _. split; [reflexivity|].
      rewrite (Hfalse _ (fraud_detection_length cfg df)). discriminate.
Qed.

(** ** The statistical outlier detector *)

Lemma in_own_group (df : DataFrame) (r : Txn) :
  In r df -> In r (group_of df (account_id r)).
Proof.
  intros H. unfold group_of. apply filter_In. split; auto.
  apply String.eqb_refl.
Qed.

Lemma single_row_group (df : DataFrame) (r : Txn) :
  In r df -> List.length (group_of df (account_id r)) = 1%nat ->
  group_of df (account_id r) = [r].
Proof.
  intros Hin Hlen. apply in_own_group in Hin.
  destruct (group_of df (account_id r)) as [|x [|y l]]; try discriminate.
  destruct Hin as [-> | []]. reflexivity.
Qed.

Lemma acct_mean_defined (df : DataFrame) (r : Txn) :
  In r df -> exists m, acct_mean df r = Some m.
Proof.
  intros Hin. apply in_own_group in Hin. unfold acct_mean, transform.
  destruct (group_of df (account_id r)) as [|x l]; [destruct Hin|].
  simpl. eauto.
Qed.

Lemma evaluate_returned (cfg : Config) (df0 : DataFrame) (rep : Report) :
  evaluate cfg df0 = Returned rep ->
  rows rep = date_filter cfg df0
  /\ flagged rep = fraud_detection cfg (date_filter cfg df0).
Proof.
  unfold evaluate. destruct (truediv _ _); [|discriminate].
  intros [= <-]. split; reflexivity.
Qed.

Lemma acct_std_single (df : DataFrame) (r : Txn) :
  List.length (group_of df (account_id r)) = 1%nat -> acct_std df r = fzero.
Proof.
  intros Hlen. unfold acct_std, transform, group_std, len.
  rewrite length_map, Hlen. reflexivity.
Qed.

Lemma outlier_alone_iff (df : DataFrame) (i : nat) (r : Txn) :
  nth_error df i = Some r ->
  exists m, acct_mean df r = Some m
    /\ (cell (alone (outlier_block df) df) i = true
        <-> fgt (of_cell (amount r))
                (fadd m (fmul ftwo (acct_std df r))) = true).
Proof.
  intros Hrow. rewrite (cell_outlier_alone _ _ _ Hrow).
  destruct (acct_mean_defined df r (nth_error_In _ _ Hrow)) as [m Hm].
  exists m. split; auto.
  unfold outlier_flag, exceeds. rewrite Hm. reflexivity.
Qed.

Lemma cells_equal (l : list Q) (x : Q) :
  (forall y, In y l -> of_cell y = of_cell x) ->
  cells l = repeat (of_cell x) (List.length l).
Proof.
  intros H. induction l as [|y l IH]; [reflexivity|].
  cbn [cells map List.length repeat]. rewrite (H y) by now left.
  f_equal. apply IH. intros z Hz. apply H. now right.
Qed.

Section Float64Facts.

(** A value alone in its group is not above the mean of the group:
    [x > mean([x]) + 2.0 * 0.0] is false. *)
Hypothesis lone_value :
  forall x : num, fgt x (fadd (group_mean_of [x]) (fmul ftwo fzero)) = false.

(** The standard deviation of a group of two or more equal values, after
    [fillna(0)], is zero. *)
Hypothesis constant_std :
  forall (x : num) (n : nat), (2 <= n)%nat -> Z.of_nat n < 2 ^ 53 ->
    fillna_zero (Some (group_std_of (repeat x n))) = fzero.

Lemma acct_std_equal_cells (df : DataFrame) (r : Txn) :
  (forall r', In r' (group_of df (account_id r)) ->
              of_cell (amount r') = of_cell (amount r)) ->
  len (group_of df (account_id r)) < 2 ^ 53 ->
  acct_std df r = fzero.
Proof.
  intros Heq Hlen. unfold acct_std, transform, group_std.
  unfold len in *. rewrite length_map.
  destruct (2 <=? Z.of_nat (List.length (group_of df (account_id r)))) eqn:E;
    [|reflexivity].
  apply Z.leb_le in E.
  rewrite (cells_equal _ (amount r)), length_map.
  - apply constant_std; lia.
  - intros y Hy. apply in_map_iff in Hy. destruct Hy as (r' & <- & Hr').
    now apply Heq.
Qed.


End Float64Facts.

(** ** Sorting *)

Section SortingFacts.
Variable le : Txn -> Txn -> bool.
Hypothesis le_total : forall x y, le x y = false -> le y x = true.
Hypothesis le_trans :
  forall x y z, le x y = true -> le y z = true -> le x z = true.

Lemma insert_row_perm (r : Txn) (l : DataFrame) :
  Permutation (insert_row le r l) (r :: l).
Proof.
  induction l as [|y l IH]; simpl; auto.
  destruct (le r y); auto.
  rewrite IH. apply perm_swap.
Qed.

Lemma sort_values_perm (df : DataFrame) :
  Permutation (sort_values le df) df.
Proof.
  induction df as [|r df IH]; simpl; auto.
  rewrite insert_row_perm. now constructor.
Qed.

Lemma insert_row_sorted (r : Txn) (l : DataFrame) :
  StronglySorted (fun x y => le x y = true) l ->
  StronglySorted (fun x y => le x y = true) (insert_row le r l).
Proof.
  induction 1 as [|y l Hs IH Hall]; simpl.
  - repeat constructor.
  - destruct (le r y) eqn:E.
    + constructor; [now constructor|].
      constructor; [exact E|].
      eapply Forall_impl; [|exact Hall]. intros z Hz.
      now apply le_trans with y.
    + constructor; auto.
      apply (Permutation_Forall (Permutation_sym (insert_row_perm r l))).
      constructor; [now apply le_total | exact Hall].
Qed.

Lemma sort_values_sorted (df : DataFrame) :
  StronglySorted (fun x y => le x y = true) (sort_values le df).
Proof.
  induction df as [|r df IH]; simpl.
  - constructor.
  - now apply insert_row_sorted.
Qed.
End SortingFacts.

Lemma na_last_le_total (c1 c2 : option Z) :
  na_last_le c1 c2 = false -> na_last_le c2 c1 = true.
Proof.
  destruct c1, c2; simpl; auto; try discriminate.
  rewrite Z.leb_gt, Z.leb_le. lia.
Qed.

Lemma na_last_le_trans (c1 c2 c3 : option Z) :
  na_last_le c1 c2 = true -> na_last_le c2 c3 = true ->
  na_last_le c1 c3 = true.
Proof.
  destruct c1, c2, c3; simpl; auto; try discriminate.
  rewrite !Z.leb_le. lia.
Qed.

Lemma compare_refl (a : string) : String.compare a a = Eq.
Proof. now apply String_as_OT.cmp_eq. Qed.

Lemma compare_lt_trans (a b c : string) :
  String.compare a b = Lt -> String.compare b c = Lt ->
  String.compare a c = Lt.
Proof.
  intros H1 H2. apply String_as_OT.cmp_lt.
  apply String_as_OT.lt_trans with b; now apply String_as_OT.cmp_lt.
Qed.

Lemma compare_gt_lt (a b : string) :
  String.compare a b = Gt -> String.compare b a = Lt.
Proof.
  intros H. rewrite String.compare_antisym, H. reflexivity.
Qed.

Lemma account_date_le_total (x y : Txn) :
  account_date_le x y = false -> account_date_le y x = true.
Proof.
  unfold account_date_le.
  destruct (String.compare (account_id x) (account_id y)) eqn:E.
  - apply String.compare_eq_iff in E. rewrite E, compare_refl.
    apply na_last_le_total.
  - discriminate.
  - now rewrite (compare_gt_lt _ _ E).
Qed.

Lemma account_date_le_trans (x y z : Txn) :
  account_date_le x y = true -> account_date_le y z = true ->
  account_date_le x z = true.
Proof.
  unfold account_date_le.
  destruct (String.compare (account_id x) (account_id y)) eqn:E1;
    destruct (String.compare (account_id y) (account_id z)) eqn:E2;
    try discriminate.
  - apply String.compare_eq_iff in E1, E2. rewrite E1, E2, compare_refl.
    apply na_last_le_trans.
  - apply String.compare_eq_iff in E1. now rewrite E1, E2.
  - apply String.compare_eq_iff in E2. now rewrite <- E2, E1.
  - now rewrite (compare_lt_trans _ _ _ E1 E2).
Qed.

Lemma date_only_le_total (x y : Txn) :
  date_only_le x y = false -> date_only_le y x = true.
Proof. apply na_last_le_total. Qed.

Lemma date_only_le_trans (x y z : Txn) :
  date_only_le x y = true -> date_only_le y z = true ->
  date_only_le x z = true.
Proof. apply na_last_le_trans. Qed.

Lemma account_date_le_same_account (x y : Txn) :
  account_id x = account_id y ->
  account_date_le x y = date_only_le x y.
Proof.
  intros H. unfold account_date_le. now rewrite H, compare_refl.
Qed.

(** ** Grouping the sorted frame *)

Lemma insert_row_front (le : Txn -> Txn -> bool) (r : Txn) (l : DataFrame) :
  Forall (fun z => le r z = true) l -> insert_row le r l = r :: l.
Proof.
  destruct 1 as [|z l Hz _]; simpl; auto. now rewrite Hz.
Qed.

Lemma group_of_cons (r : Txn) (l : DataFrame) (a : string) :
  group_of (r :: l) a
  = if String.eqb (account_id r) a then r :: group_of l a else group_of l a.
Proof. reflexivity. Qed.

Lemma group_of_insert (r : Txn) (l : DataFrame) (a : string) :
  StronglySorted (fun x y => account_date_le x y = true) l ->
  group_of (insert_row account_date_le r l) a
  = if String.eqb (account_id r) a
    then insert_row date_only_le r (group_of l a)
    else group_of l a.
Proof.
  induction 1 as [|y l Hs IH Hall].
  - simpl. now destruct (String.eqb (account_id r) a).
  - cbn [insert_row]. destruct (account_date_le r y) eqn:E.
    + rewrite (group_of_cons r).
      destruct (String.eqb (account_id r) a) eqn:Er; auto.
      symmetry. apply insert_row_front.
      apply String.eqb_eq in Er.
      unfold group_of. apply Forall_forall. intros z Hz.
      apply filter_In in Hz. destruct Hz as [Hz Ha].
      apply String.eqb_eq in Ha.
      rewrite <- account_date_le_same_account by congruence.
      destruct Hz as [<- | Hz]; auto.
      apply account_date_le_trans with y; auto.
      rewrite Forall_forall in Hall. now apply Hall.
    + rewrite !(group_of_cons y), IH.
      destruct (String.eqb (account_id y) a) eqn:Ey; auto.
      destruct (String.eqb (account_id r) a) eqn:Er; auto.
      apply String.eqb_eq in Ey, Er.
      cbn [insert_row].
      rewrite <- account_date_le_same_account by congruence.
      now rewrite E.
Qed.

Lemma group_of_sorted (df : DataFrame) (a : string) :
  group_of (sort_values account_date_le df) a
  = sort_values date_only_le (group_of df a).
Proof.
  induction df as [|r df IH]; auto.
  cbn [sort_values fold_right]. fold (sort_values account_date_le df).
  rewrite group_of_insert
    by (apply sort_values_sorted;
        [apply account_date_le_total | apply account_date_le_trans]).
  rewrite IH, group_of_cons.
  now destruct (String.eqb (account_id r) a).
Qed.

(** ** Differences within a group *)

Lemma find_same_account (a : string) (r : Txn) (seen : list Txn) :
  account_id r = a ->
  find (fun p => String.eqb (account_id p) (account_id r)) seen
  = find (fun p => String.eqb (account_id p) a) seen.
Proof. now intros ->. Qed.

Lemma groupby_diff_group (a : string) (seen rows : list Txn) :
  map snd (filter (fun rd : Txn * option Z => String.eqb (account_id (fst rd)) a)
                  (combine rows (groupby_diff seen rows)))
  = deltas (find (fun p => String.eqb (account_id p) a) seen) (group_of rows a).
Proof.
  revert seen. induction rows as [|r rows IH]; intros seen; auto.
  cbn [groupby_diff combine filter fst group_of].
  fold (group_of rows a).
  destruct (String.eqb (account_id r) a) eqn:E.
  - cbn [map snd deltas]. rewrite IH. cbn [find]. rewrite E.
    apply String.eqb_eq in E. rewrite (find_same_account a r seen E).
    reflexivity.
  - rewrite IH. cbn [find]. now rewrite E.
Qed.

Lemma groupby_sum_count (a : string) (rows : list Txn) (ds : list (option Z)) :
  groupby_sum rows (map is_rapid ds) a
  = count_rapid
      (map snd (filter (fun rd : Txn * option Z =>
                          String.eqb (account_id (fst rd)) a)
                       (combine rows ds))).
Proof.
  unfold groupby_sum, count_rapid, len. f_equal.
  revert ds. induction rows as [|r rows IH]; intros [|d ds]; auto.
  cbn [map combine filter fst snd].
  destruct (String.eqb (account_id r) a); cbn [andb map filter snd].
  - destruct (is_rapid d); cbn [List.length]; now rewrite IH.
  - apply IH.
Qed.

Lemma sorted_group_sum (df : DataFrame) (a : string) :
  let df_sorted := sort_values account_date_le df in
  groupby_sum df_sorted (map is_rapid (groupby_diff [] df_sorted)) a
  = account_rapid_count df a.
Proof.
  intros df_sorted. rewrite groupby_sum_count, groupby_diff_group.
  unfold df_sorted. rewrite group_of_sorted. reflexivity.
Qed.

(** ** The accounts that escalate *)

Lemma isin_filter (x : string) (p : string -> bool) (l : list string) :
  isin x (filter p l) = true <-> In x l /\ p x = true.
Proof.
  unfold isin. rewrite existsb_exists. split.
  - intros (y & Hy & E). apply String.eqb_eq in E. subst y.
    now apply filter_In in Hy.
  - intros H. exists x. split; [now apply filter_In | apply String.eqb_refl].
Qed.

Lemma in_accounts_sorted (df : DataFrame) (r : Txn) :
  In r df -> In (account_id r) (accounts (sort_values account_date_le df)).
Proof.
  intros H. unfold accounts. apply nodup_In, in_map.
  apply (Permutation_in r (Permutation_sym (sort_values_perm _ df))), H.
Qed.

Lemma isin_rapid_ids (cfg : Config) (df : DataFrame) (r : Txn) :
  In r df ->
  isin (account_id r) (rapid_ids cfg df)
  = (rapid_txn_threshold cfg <=? account_rapid_count df (account_id r)).
Proof.
  intros Hin. apply eq_true_iff_eq. unfold rapid_ids.
  rewrite isin_filter, sorted_group_sum. split.
  - now intros [_ H].
  - intros H. split; auto. now apply in_accounts_sorted.
Qed.

Lemma rapid_block_rule (cfg : Config) (df : DataFrame) (i : nat) (r : Txn) :
  nth_error df i = Some r ->
  cell (alone (rapid_block cfg df) df) i = rapid_rule cfg df r.
Proof.
  intros Hrow. rewrite (cell_rapid_alone _ _ _ _ Hrow). unfold rapid_rule.
  now rewrite (isin_rapid_ids cfg df r (nth_error_In _ _ Hrow)).
Qed.

Lemma rapid_rule_true (cfg : Config) (df : DataFrame) (r : Txn) :
  rapid_rule cfg df r = true <->
  0 < rapid_txn_threshold cfg /\ has_dates df = true
  /\ rapid_txn_threshold cfg <= account_rapid_count df (account_id r).
Proof.
  unfold rapid_rule. rewrite !andb_true_iff, Z.ltb_lt, Z.leb_le. tauto.
Qed.

Lemma is_rapid_spec (d : option Z) :
  is_rapid d = true <-> exists x, d = Some x /\ x < 3600 * ns_per_second.
Proof.
  unfold is_rapid. destruct d as [x|].
  - rewrite Z.ltb_lt. split.
    + intros H. now exists x.
    + now intros (y & [= <-] & H).
  - split; [discriminate | now intros (x & [=] & _)].
Qed.

(** ** Rows without a timestamp in the rapid count *)

Lemma group_of_notna (df : DataFrame) (a : string) :
  group_of (filter notna df) a = filter notna (group_of df a).
Proof.
  unfold group_of. induction df as [|r df IH]; simpl; auto.
  destruct (notna r) eqn:En, (String.eqb (account_id r) a) eqn:Ea; simpl;
    rewrite ?En, ?Ea, IH; reflexivity.
Qed.

Lemma insert_row_isna (x : Txn) (s n : list Txn) :
  isna x = true -> Forall (fun r => notna r = true) s ->
  Forall (fun r => isna r = true) n ->
  insert_row date_only_le x (s ++ n) = s ++ x :: n.
Proof.
  intros Hx Hs Hn. unfold isna in Hx.
  induction Hs as [|y s Hy _ IH]; simpl.
  - apply insert_row_front. eapply Forall_impl; [|exact Hn].
    intros z Hz. unfold date_only_le, isna in *.
    now destruct (date x), (date z).
  - unfold date_only_le at 1. unfold notna, isna in Hy.
    destruct (date x), (date y); try discriminate. simpl. now rewrite IH.
Qed.

Lemma insert_row_notna (x : Txn) (s n : list Txn) :
  notna x = true -> Forall (fun r => isna r = true) n ->
  insert_row date_only_le x (s ++ n) = insert_row date_only_le x s ++ n.
Proof.
  intros Hx Hn. unfold notna, isna in Hx.
  induction s as [|y s IH]; simpl.
  - apply insert_row_front. eapply Forall_impl; [|exact Hn].
    intros z Hz. unfold date_only_le, isna in *.
    now destruct (date x), (date z).
  - destruct (date_only_le x y); simpl; auto. now rewrite IH.
Qed.

Lemma insert_row_keeps (P : Txn -> Prop) (le : Txn -> Txn -> bool)
    (x : Txn) (l : list Txn) :
  P x -> Forall P l -> Forall P (insert_row le x l).
Proof.
  intros Hx Hl. induction Hl as [|y l Hy Hl IH]; simpl.
  - now constructor.
  - destruct (le x y); repeat constructor; auto.
Qed.

Lemma sort_values_notna_all (l : list Txn) :
  Forall (fun r => notna r = true) (sort_values date_only_le (filter notna l)).
Proof.
  induction l as [|x l IH]; simpl; [constructor|].
  destruct (notna x) eqn:E; auto. simpl. now apply insert_row_keeps.
Qed.

Lemma sort_values_na_last (l : list Txn) :
  sort_values date_only_le l
  = sort_values date_only_le (filter notna l) ++ filter isna l.
Proof.
  induction l as [|x l IH]; auto.
  cbn [sort_values fold_right filter]. fold (sort_values date_only_le l).
  rewrite IH.
  assert (Hn : Forall (fun r => isna r = true) (filter isna l)).
  { apply Forall_forall. intros z Hz. now apply filter_In in Hz. }
  assert (En : notna x = negb (isna x)) by reflexivity.
  rewrite En. destruct (isna x) eqn:E; cbn [negb fold_right].
  - apply insert_row_isna; auto; apply sort_values_notna_all.
  - apply insert_row_notna; auto.
Qed.

Lemma deltas_app_isna (prev : option Txn) (s n : list Txn) :
  Forall (fun r => isna r = true) n ->
  filter is_rapid (deltas prev (s ++ n)) = filter is_rapid (deltas prev s).
Proof.
  intros Hn. revert prev. induction s as [|y s IH]; intros prev.
  - simpl. revert prev. induction Hn as [|z n Hz _ IH]; intros prev; auto.
    cbn [deltas filter]. unfold isna in Hz.
    destruct (date z); [discriminate|].
    replace (is_rapid _) with false by now destruct prev.
    apply IH.
  - cbn [app deltas filter]. now rewrite IH.
Qed.

Lemma account_rapid_count_notna (df : DataFrame) (a : string) :
  account_rapid_count (filter notna df) a = account_rapid_count df a.
Proof.
  unfold account_rapid_count, count_rapid. f_equal.
  rewrite (sort_values_na_last (group_of df a)), deltas_app_isna.
  - now rewrite group_of_notna.
  - apply Forall_forall. intros z Hz. now apply filter_In in Hz.
Qed.

(** ** The rapid-succession detector *)

(** C1.  With a positive threshold and some timestamp in the frame, the
    rapid detector flags a row exactly when the row's account has at least
    [rapid_txn_threshold] rapid gaps, where the gaps of an account are got by
    ordering the account's rows by timestamp ascending and taking the
    distance of each row to the one before it (no distance for the first
    row), a gap being rapid when it is strictly under 3600 seconds; the
    verdict is the same for every row of the account; nothing is flagged
    when the threshold is 0 or less or no row has a timestamp; two equal
    timestamps are a rapid gap of 0.  On the three rows of account A at
    10:00, 10:10 and 10:20 with threshold 2 the gaps are none, 600 s and
    600 s, and all three rows are flagged. *)
Theorem rapid_succession_account_escalation
    (cfg : Config) (df : DataFrame) (i : nat) (r : Txn) :
  nth_error df i = Some r ->
  cell (alone (rapid_block cfg df) df) i = rapid_rule cfg df r
  /\ (cell (alone (rapid_block cfg df) df) i = true <->
      0 < rapid_txn_threshold cfg /\ has_dates df = true
      /\ rapid_txn_threshold cfg <= account_rapid_count df (account_id r))
  /\ (StronglySorted (fun x y => date_only_le x y = true)
        (sort_values date_only_le (group_of df (account_id r)))
      /\ Permutation (sort_values date_only_le (group_of df (account_id r)))
           (group_of df (account_id r)))
  /\ (forall j r', nth_error df j = Some r' -> account_id r' = account_id r ->
        cell (alone (rapid_block cfg df) df) j
        = cell (alone (rapid_block cfg df) df) i)
  /\ (rapid_txn_threshold cfg <= 0 \/ has_dates df = false ->
        cell (alone (rapid_block cfg df) df) i = false)
  /\ (forall x rest, deltas None (x :: rest) = None :: deltas (Some x) rest)
  /\ (forall d, is_rapid d = true <->
                exists x, d = Some x /\ x < 3600 * ns_per_second)
  /\ (forall t, is_rapid (sub_dates (Some t) (Some t)) = true)
  /\ (deltas None (sort_values date_only_le (group_of scenario_df "A"))
      = [None; Some (600 * ns_per_second); Some (600 * ns_per_second)]
      /\ alone (rapid_block scenario_cfg scenario_df) scenario_df
         = [true; true; true]
      /\ fraud_detection scenario_cfg scenario_df = [true; true; true]).
Proof.
  intros Hrow. rewrite (rapid_block_rule _ _ _ _ Hrow).
  split; [reflexivity|]. split; [apply rapid_rule_true|].
  split; [|split; [|split; [|split; [|split; [|split]]]]].
  - split.
    + apply sort_values_sorted;
        [apply date_only_le_total | apply date_only_le_trans].
    + apply sort_values_perm.
  - intros j r' Hrow' Hacc. rewrite (rapid_block_rule _ _ _ _ Hrow').
    unfold rapid_rule. now rewrite Hacc.
  - unfold rapid_rule. intros [H | H].
    + apply Z.ltb_ge in H. now rewrite H.
    + rewrite H. now rewrite andb_false_r.
  - reflexivity.
  - apply is_rapid_spec.
  - intros t. simpl. rewrite Z.sub_diag. reflexivity.
  - do 2 (split; [vm_compute; reflexivity|]).
    unfold fraud_detection. cbv zeta.
    replace (rapid_block scenario_cfg scenario_df
               (high_value_block scenario_cfg scenario_df
                  (repeat false (List.length scenario_df))))
      with [true; true; true] by (vm_compute; reflexivity).
    unfold outlier_block, outlier_mask, scenario_df. cbn [map].
    do 3 destruct (outlier_flag _ _); vm_compute; reflexivity.
Qed.

(** C9.  Once an account reaches the threshold, every row carrying that
    account is flagged by the rapid detector, a row without timestamp
    included; rows without timestamp add no rapid gap (a gap to or from
    such a row is never rapid), so the count that decides is the one over
    the account's rows that have a timestamp. *)
Theorem rapid_escalation_covers_missing_dates
    (cfg : Config) (df : DataFrame) (i : nat) (r : Txn) :
  nth_error df i = Some r ->
  (cell (alone (rapid_block cfg df) df) i = true <->
     0 < rapid_txn_threshold cfg /\ has_dates df = true
     /\ rapid_txn_threshold cfg
        <= account_rapid_count (filter notna df) (account_id r))
  /\ (forall j r', nth_error df j = Some r' -> account_id r' = account_id r ->
        cell (alone (rapid_block cfg df) df) i = true ->
        cell (alone (rapid_block cfg df) df) j = true)
  /\ (forall c, is_rapid (sub_dates None c) = false
                /\ is_rapid (sub_dates c None) = false)
  /\ account_rapid_count (filter notna df) (account_id r)
     = account_rapid_count df (account_id r).
Proof.
  intros Hrow. rewrite account_rapid_count_notna.
  rewrite (rapid_block_rule _ _ _ _ Hrow).
  split; [apply rapid_rule_true|]. split; [|split; [|reflexivity]].
  - intros j r' Hrow' Hacc. rewrite (rapid_block_rule _ _ _ _ Hrow').
    unfold rapid_rule. now rewrite Hacc.
  - intros c. split; [reflexivity | now destruct c].
Qed.

(** ** Every switch off *)

(** C3, amended.  With both thresholds 0, no risky merchant and no
    timestamp in the frame, the date filter changes nothing, the
    high-value, rapid, weekend and risky-merchant detectors flag nothing,
    and the rows flagged are exactly those the outlier detector flags: the
    rows whose amount is above their account's mean plus twice their
    account's standard deviation, as pandas computes them in float64. *)
Theorem all_off_leaves_outliers_only
    (cfg : Config) (df : DataFrame) (i : nat) (r : Txn) :
  user_threshold cfg = 0 -> rapid_txn_threshold cfg = 0 ->
  risky_merchants cfg = [] -> has_dates df = false ->
  nth_error df i = Some r ->
  date_filter cfg df = df
  /\ cell (alone (high_value_block cfg df) df) i = false
  /\ cell (alone (rapid_block cfg df) df) i = false
  /\ cell (alone (weekend_block df) df) i = false
  /\ cell (alone (risky_block cfg df) df) i = false
  /\ cell (fraud_detection cfg df) i = cell (alone (outlier_block df) df) i
  /\ (exists m, acct_mean df r = Some m
        /\ (cell (fraud_detection cfg df) i = true
            <-> fgt (of_cell (amount r))
                    (fadd m (fmul ftwo (acct_std df r))) = true)).
Proof.
  intros Hu Hr Hm Hd Hrow.
  assert (H1 : cell (alone (high_value_block cfg df) df) i = false)
    by now rewrite (cell_high_value_alone _ _ _ _ Hrow), Hu.
  assert (H2 : cell (alone (rapid_block cfg df) df) i = false)
    by now rewrite (cell_rapid_alone _ _ _ _ Hrow), Hr.
  assert (H3 : cell (alone (weekend_block df) df) i = false)
    by now rewrite (cell_weekend_alone _ _ _ Hrow), Hd.
  assert (H4 : cell (alone (risky_block cfg df) df) i = false)
    by now rewrite (cell_risky_alone _ _ _ _ Hrow), Hm.
  assert (H5 : cell (fraud_detection cfg df) i
               = cell (alone (outlier_block df) df) i)
    by (rewrite (cell_fraud_detection _ _ _ _ Hrow), H1, H2, H3, H4;
        simpl; now rewrite !orb_false_r).
  split; [apply date_filter_skipped; auto|].
  repeat (split; [assumption|]).
  rewrite H5. now apply outlier_alone_iff.
Qed.

(** ** Metrics on an empty frame *)

Lemma evaluate_empty (cfg : Config) (df : DataFrame) :
  date_filter cfg df = [] -> evaluate cfg df = ZeroDivisionError.
Proof. intros H. unfold evaluate. now rewrite H. Qed.

Lemma evaluate_nonempty (cfg : Config) (df : DataFrame) :
  date_filter cfg df <> [] -> exists rep, evaluate cfg df = Returned rep.
Proof.
  intros H. unfold evaluate, truediv.
  destruct (len (date_filter cfg df) =? 0) eqn:E; eauto.
  apply Z.eqb_eq in E. unfold len in E.
  destruct (date_filter cfg df); [congruence | discriminate].
Qed.

(** C2.  On a frame the date filter has emptied, the row count is 0 and the
    mean, maximum and minimum amounts are [NaN] without any failure, but
    the flagged percentage divides by the row count unguarded: the
    evaluation ends in [ZeroDivisionError].  Shown on the three rows of
    January 2024 under a window of February 2024, and on an empty input
    under any configuration. *)
Theorem empty_window_raises_zero_division :
  date_filter february_cfg scenario_df = []
  /\ len (date_filter february_cfg scenario_df) = 0
  /\ series_mean (map amount (date_filter february_cfg scenario_df)) = None
  /\ series_max (map amount (date_filter february_cfg scenario_df)) = None
  /\ series_min (map amount (date_filter february_cfg scenario_df)) = None
  /\ fraud_detection february_cfg (date_filter february_cfg scenario_df) = []
  /\ truediv 0 0 = ZeroDivisionError
  /\ evaluate february_cfg scenario_df = ZeroDivisionError
  /\ (forall cfg, evaluate cfg [] = ZeroDivisionError).
Proof.
  do 8 (split; [vm_compute; reflexivity|]).
  intros cfg. apply evaluate_empty.
  unfold date_filter. now destruct (start_date cfg), (end_date cfg).
Qed.

(** * Further properties of the pipeline *)

(** ** The risky-merchant detector *)

Lemma isin_In (x : string) (l : list string) : isin x l = true <-> In x l.
Proof.
  unfold isin. rewrite existsb_exists. split.
  - intros (y & Hy & E). apply String.eqb_eq in E. now subst.
  - intros H. exists x. split; [exact H | apply String.eqb_refl].
Qed.

(** X1.  The risky-merchant detector flags a row exactly when the row's
    merchant is one of the selected merchants, so with nothing selected it
    flags nothing; the verdict depends on the merchant of the row alone,
    and neither the order of the selection nor a merchant selected twice
    changes it. *)
Theorem risky_merchant_membership
    (cfg : Config) (df : DataFrame) (i : nat) (r : Txn) :
  nth_error df i = Some r ->
  (cell (alone (risky_block cfg df) df) i = true
   <-> In (merchant r) (risky_merchants cfg))
  /\ (risky_merchants cfg = [] ->
      cell (alone (risky_block cfg df) df) i = false)
  /\ (forall df' j r', nth_error df' j = Some r' -> merchant r' = merchant r ->
      cell (alone (risky_block cfg df') df') j
      = cell (alone (risky_block cfg df) df) i)
  /\ (forall cfg',
      (forall m, In m (risky_merchants cfg') <-> In m (risky_merchants cfg)) ->
      cell (alone (risky_block cfg' df) df) i
      = cell (alone (risky_block cfg df) df) i).
Proof.
  intros Hrow. rewrite (cell_risky_alone _ _ _ _ Hrow).
  split; [apply isin_In|]. split; [|split].
  - now intros ->.
  - intros df' j r' Hrow' Hm.
    now rewrite (cell_risky_alone _ _ _ _ Hrow'), Hm.
  - intros cfg' Hsame. rewrite (cell_risky_alone _ _ _ _ Hrow).
    apply eq_true_iff_eq. rewrite !isin_In. apply Hsame.
Qed.

(** ** Summary metrics *)

Lemma fold_max_spec (l : list Q) (x : Q) :
  let m := fold_left (fun m y => if Qle_bool m y then y else m) l x in
  In m (x :: l) /\ forall y, In y (x :: l) -> (y <= m)%Q.
Proof.
  revert x. induction l as [|y l IH]; intros x; cbn [fold_left].
  - split; [now left|]. intros y [<- | []]. apply Qle_refl.
  - destruct (IH (if Qle_bool x y then y else x)) as [Hin Hall].
    set (m := fold_left _ l _) in *. split.
    + destruct Hin as [Hm | Hm]; [|now right; right].
      rewrite <- Hm. destruct (Qle_bool x y); [right; now left | now left].
    + assert (Hxy : (x <= (if Qle_bool x y then y else x)
                     /\ y <= (if Qle_bool x y then y else x))%Q).
      { destruct (Qle_bool x y) eqn:E.
        - apply Qle_bool_iff in E. split; [exact E | apply Qle_refl].
        - split; [apply Qle_refl|]. apply Qlt_le_weak, Qnot_le_lt.
          intros H. apply Qle_bool_iff in H. congruence. }
      intros z [<- | [<- | Hz]].
      * apply Qle_trans with (if Qle_bool x y then y else x);
          [apply Hxy | apply Hall; now left].
      * apply Qle_trans with (if Qle_bool x y then y else x);
          [apply Hxy | apply Hall; now left].
      * apply Hall. now right.
Qed.

Lemma fold_min_spec (l : list Q) (x : Q) :
  let m := fold_left (fun m y => if Qle_bool y m then y else m) l x in
  In m (x :: l) /\ forall y, In y (x :: l) -> (m <= y)%Q.
Proof.
  revert x. induction l as [|y l IH]; intros x; cbn [fold_left].
  - split; [now left|]. intros y [<- | []]. apply Qle_refl.
  - destruct (IH (if Qle_bool y x then y else x)) as [Hin Hall].
    set (m := fold_left _ l _) in *. split.
    + destruct Hin as [Hm | Hm]; [|now right; right].
      rewrite <- Hm. destruct (Qle_bool y x); [right; now left | now left].
    + assert (Hxy : ((if Qle_bool y x then y else x) <= x
                     /\ (if Qle_bool y x then y else x) <= y)%Q).
      { destruct (Qle_bool y x) eqn:E.
        - apply Qle_bool_iff in E. split; [exact E | apply Qle_refl].
        - split; [apply Qle_refl|]. apply Qlt_le_weak, Qnot_le_lt.
          intros H. apply Qle_bool_iff in H. congruence. }
      intros z [<- | [<- | Hz]].
      * apply Qle_trans with (if Qle_bool y x then y else x);
          [apply Hall; now left | apply Hxy].
      * apply Qle_trans with (if Qle_bool y x then y else x);
          [apply Hall; now left | apply Hxy].
      * apply Hall. now right.
Qed.

Lemma series_bracket (l : list Q) :
  l <> [] ->
  exists mn mx,
    series_min l = Some mn /\ series_max l = Some mx
    /\ series_mean l = Some (mean_of (cells l))
    /\ In mn l /\ In mx l
    /\ (forall x, In x l -> mn <= x <= mx)%Q.
Proof.
  destruct l as [|x l]; [congruence|]. intros _.
  destruct (fold_max_spec l x) as [Hmx Hmax].
  destruct (fold_min_spec l x) as [Hmn Hmin].
  eexists _, _.
  do 3 (split; [reflexivity|]).
  split; [exact Hmn | split; [exact Hmx|]].
  intros y Hy. split; [now apply Hmin | now apply Hmax].
Qed.

Lemma evaluate_fields (cfg : Config) (df0 : DataFrame) (rep : Report) :
  evaluate cfg df0 = Returned rep ->
  let df := date_filter cfg df0 in
  df <> []
  /\ rows rep = df
  /\ total_txn rep = len df
  /\ avg_amount rep = series_mean (map amount df)
  /\ max_amount rep = series_max (map amount df)
  /\ min_amount rep = series_min (map amount df)
  /\ flagged rep = fraud_detection cfg df
  /\ flagged_df rep = select df (fraud_detection cfg df)
  /\ flagged_pct rep
     = (inject_Z (len (select df (fraud_detection cfg df))) / inject_Z (len df)
        * 100)%Q.
Proof.
  intros H df. unfold evaluate, truediv in H. fold df in H.
  destruct (len df =? 0) eqn:E; [discriminate|].
  injection H as <-. split.
  - intros Hnil. rewrite Hnil in E. discriminate.
  - cbn. repeat (split; [reflexivity|]). reflexivity.
Qed.

(** X2.  Whenever the evaluation returns, the three amount metrics are
    numbers: the minimum and the maximum are amounts of rows of the filtered
    frame and bound every amount in it, and the average is the float64 mean
    of the amount cells of that frame. *)
Theorem extreme_amounts_are_attained
    (cfg : Config) (df0 : DataFrame) (rep : Report) :
  evaluate cfg df0 = Returned rep ->
  exists mn mx,
    min_amount rep = Some mn /\ max_amount rep = Some mx
    /\ avg_amount rep = Some (mean_of (cells (map amount (rows rep))))
    /\ (exists r, In r (rows rep) /\ amount r = mn)
    /\ (exists r, In r (rows rep) /\ amount r = mx)
    /\ (forall r, In r (rows rep) -> mn <= amount r <= mx)%Q.
Proof.
  intros H. destruct (evaluate_fields _ _ _ H)
    as (Hne & Hrows & _ & Havg & Hmax & Hmin & _).
  destruct (series_bracket (map amount (date_filter cfg df0)))
    as (mn & mx & E1 & E2 & E3 & Hmn & Hmx & Hall).
  { intros E. apply map_eq_nil in E. contradiction. }
  exists mn, mx. rewrite Hmin, Havg, Hmax, Hrows.
  do 3 (split; [assumption|]).
  apply in_map_iff in Hmn, Hmx.
  destruct Hmn as (r1 & H1 & Hr1). destruct Hmx as (r2 & H2 & Hr2).
  split; [now exists r1|]. split; [now exists r2|].
  intros r Hr. apply Hall. now apply in_map.
Qed.

(** ** The flagged rows *)

Lemma select_cons (r : Txn) (df : DataFrame) (b : bool) (col : list bool) :
  select (r :: df) (b :: col) = if b then r :: select df col else select df col.
Proof. unfold select. simpl. now destruct b. Qed.

Lemma select_In (df : DataFrame) (col : list bool) (r : Txn) :
  In r (select df col)
  <-> exists i, nth_error df i = Some r /\ cell col i = true.
Proof.
  revert col. induction df as [|x df IH]; intros col.
  - split; [intros [] | intros ([|i] & [=] & _)].
  - destruct col as [|b col].
    + split; [intros [] | intros (i & _ & H)]. now destruct i.
    + rewrite select_cons. split.
      * intros Hr.
        assert (Hcases : (b = true /\ x = r) \/ In r (select df col))
          by (destruct b; [destruct Hr; auto | auto]).
        destruct Hcases as [[-> ->] | Hin].
        -- now exists 0%nat.
        -- apply IH in Hin. destruct Hin as (i & Hi & Hc). now exists (S i).
      * intros ([|i] & Hi & Hc); cbn in Hi, Hc.
        -- injection Hi as ->. unfold cell in Hc. simpl in Hc. subst b.
           now left.
        -- assert (Hsel : In r (select df col)) by (apply IH; now exists i).
           destruct b; [now right | assumption].
Qed.

Lemma select_length (df : DataFrame) (col : list bool) :
  (List.length (select df col) <= List.length df)%nat.
Proof.
  revert col. induction df as [|x df IH]; intros [|b col];
    try (unfold select; simpl; lia).
  rewrite select_cons. specialize (IH col). destruct b; simpl; lia.
Qed.

Lemma select_all (df : DataFrame) (col : list bool) :
  List.length (select df col) = List.length df -> select df col = df.
Proof.
  revert col. induction df as [|x df IH]; intros [|b col]; try reflexivity.
  - discriminate.
  - rewrite select_cons. pose proof (select_length df col) as Hle.
    destruct b; simpl; intros Hlen; [|lia]. f_equal. apply IH. lia.
Qed.

Lemma Qdiv_share (a n : Z) :
  0 <= a <= n -> 0 < n ->
  (0 <= inject_Z a / inject_Z n * 100 <= 100)%Q
  /\ ((inject_Z a / inject_Z n * 100 == 0)%Q <-> a = 0)
  /\ ((inject_Z a / inject_Z n * 100 == 100)%Q <-> a = n).
Proof.
  intros Ha Hn.
  assert (Hn' : (0 < inject_Z n)%Q)
    by (change 0%Q with (inject_Z 0); now rewrite <- Zlt_Qlt).
  assert (Hq0 : (0 <= inject_Z a / inject_Z n)%Q).
  { apply Qle_shift_div_l; auto. rewrite Qmult_0_l.
    change 0%Q with (inject_Z 0). rewrite <- Zle_Qle. lia. }
  assert (Hq1 : (inject_Z a / inject_Z n <= 1)%Q).
  { apply Qle_shift_div_r; auto. rewrite Qmult_1_l.
    rewrite <- Zle_Qle. lia. }
  assert (Heq : forall c : Z,
             (inject_Z a / inject_Z n == inject_Z c)%Q <-> a = c * n).
  { intros c. split.
    - intros E.
      assert (H1 : (inject_Z a == inject_Z a / inject_Z n * inject_Z n)%Q).
      { field. intros Hz. rewrite Hz in Hn'. now apply Qlt_irrefl in Hn'. }
      rewrite E, <- inject_Z_mult in H1. now apply -> inject_Z_injective in H1.
    - intros ->. rewrite inject_Z_mult. field. intros Hz. rewrite Hz in Hn'.
      now apply Qlt_irrefl in Hn'. }
  split; [split; lra|]. split.
  - rewrite <- (Heq 0). change (inject_Z 0) with 0%Q. split; intros; lra.
  - replace (a = n) with (a = 1 * n) by (f_equal; lia).
    rewrite <- (Heq 1). change (inject_Z 1) with 1%Q. split; intros; lra.
Qed.

(** X3.  The evaluation fails, with a division by zero, exactly when the
    date filter leaves no row; otherwise the row count is positive, the
    flag column has one cell per row, the flagged rows are no more than the
    rows, and the flagged percentage lies between 0 and 100, being 0
    exactly when no row is flagged and 100 exactly when every row is. *)
Theorem flagged_share_bounds (cfg : Config) (df0 : DataFrame) :
  (evaluate cfg df0 = ZeroDivisionError <-> date_filter cfg df0 = [])
  /\ forall rep, evaluate cfg df0 = Returned rep ->
       0 < total_txn rep
       /\ total_txn rep = len (rows rep)
       /\ List.length (flagged rep) = List.length (rows rep)
       /\ 0 <= len (flagged_df rep) <= total_txn rep
       /\ (0 <= flagged_pct rep <= 100)%Q
       /\ ((flagged_pct rep == 0)%Q <-> flagged_df rep = [])
       /\ ((flagged_pct rep == 100)%Q <-> flagged_df rep = rows rep).
Proof.
  split.
  - split; [|apply evaluate_empty]. intros H.
    destruct (date_filter cfg df0) as [|x l] eqn:E; auto.
    destruct (evaluate_nonempty cfg df0) as [rep Hrep]; congruence.
  - intros rep H. destruct (evaluate_fields _ _ _ H)
      as (Hne & Hrows & Htot & _ & _ & _ & Hcol & Hfdf & Hpct).
    set (df := date_filter cfg df0) in *.
    assert (Hpos : 0 < len df).
    { unfold len. destruct df; [congruence | simpl; lia]. }
    pose proof (select_length df (fraud_detection cfg df)) as Hsel.
    assert (Hrange : 0 <= len (select df (fraud_detection cfg df)) <= len df)
      by (unfold len; lia).
    destruct (Qdiv_share _ _ Hrange Hpos) as (Hb & H0 & H100).
    rewrite Hpct, Hfdf, Htot, Hrows, Hcol, fraud_detection_length.
    repeat (split; [assumption || reflexivity || apply Hrange|]).
    split.
    + rewrite H0. unfold len. split.
      * intros E. destruct (select df _); [reflexivity | discriminate].
      * now intros ->.
    + rewrite H100. unfold len. split.
      * intros E. apply select_all. lia.
      * now intros ->.
Qed.

(** ** How many rows a rapid flag needs *)

Lemma count_rapid_deltas (prev : option Txn) (l : list Txn) :
  count_rapid (deltas prev l) <= len l.
Proof.
  unfold count_rapid, len. revert prev.
  induction l as [|x l IH]; intros prev; cbn [deltas filter List.length].
  - lia.
  - specialize (IH (Some x)). destruct (is_rapid _); cbn [List.length]; lia.
Qed.

Lemma count_rapid_first (l : list Txn) :
  count_rapid (deltas None l) <= Z.max 0 (len l - 1).
Proof.
  destruct l as [|x l]; [unfold count_rapid, len; simpl; lia|].
  pose proof (count_rapid_deltas (Some x) l) as H.
  unfold count_rapid, len in *. cbn [deltas filter is_rapid List.length]. lia.
Qed.

Lemma account_rapid_count_bound (df : DataFrame) (a : string) :
  account_rapid_count df a
  <= Z.max 0 (len (filter notna (group_of df a)) - 1).
Proof.
  rewrite <- account_rapid_count_notna, <- group_of_notna.
  unfold account_rapid_count.
  pose proof (count_rapid_first
                (sort_values date_only_le (group_of (filter notna df) a))) as H.
  unfold len in *.
  now rewrite (Permutation_length (sort_values_perm date_only_le _)) in H.
Qed.

Lemma notna_row_has_dates (df : DataFrame) (r : Txn) :
  In r df -> notna r = true -> has_dates df = true.
Proof.
  intros Hin Hr. apply has_dates_exists. unfold notna, isna in Hr.
  destruct (date r) as [t|] eqn:E; [|discriminate]. now exists r, t.
Qed.

Lemma rapid_count_has_dates (df : DataFrame) (a : string) :
  1 <= account_rapid_count df a -> has_dates df = true.
Proof.
  intros H. pose proof (account_rapid_count_bound df a) as Hb.
  destruct (filter notna (group_of df a)) as [|x l] eqn:E.
  - unfold len in Hb. simpl in Hb. lia.
  - assert (Hx : In x (filter notna (group_of df a))) by (rewrite E; now left).
    apply filter_In in Hx. destruct Hx as [Hx Hn].
    apply filter_In in Hx. destruct Hx as [Hx _].
    now apply notna_row_has_dates with x.
Qed.

Lemma rapid_rule_local (cfg : Config) (df : DataFrame) (r : Txn) :
  rapid_rule cfg df r
  = (0 <? rapid_txn_threshold cfg)
    && (rapid_txn_threshold cfg <=? account_rapid_count df (account_id r)).
Proof.
  unfold rapid_rule.
  destruct (0 <? rapid_txn_threshold cfg) eqn:Et; auto.
  destruct (rapid_txn_threshold cfg <=? _) eqn:Ec; [|now rewrite andb_false_r].
  apply Z.ltb_lt in Et. apply Z.leb_le in Ec.
  rewrite (rapid_count_has_dates df (account_id r)); [reflexivity | lia].
Qed.

(** X4.  A row can only be flagged by the rapid detector when its account
    has at least [rapid_txn_threshold + 1] rows with a timestamp: the number
    of rapid gaps of an account is at most the number of its timestamped
    rows less one.  The guard on the presence of timestamps adds nothing to
    that: a positive threshold met by the account's count is already enough
    for the flag. *)
Theorem rapid_flag_needs_enough_rows
    (cfg : Config) (df : DataFrame) (i : nat) (r : Txn) :
  nth_error df i = Some r ->
  account_rapid_count df (account_id r)
  <= Z.max 0 (len (filter notna (group_of df (account_id r))) - 1)
  /\ (cell (alone (rapid_block cfg df) df) i = true ->
      rapid_txn_threshold cfg + 1
      <= len (filter notna (group_of df (account_id r))))
  /\ (cell (alone (rapid_block cfg df) df) i = true <->
      0 < rapid_txn_threshold cfg
      /\ rapid_txn_threshold cfg <= account_rapid_count df (account_id r)).
Proof.
  intros Hrow. pose proof (account_rapid_count_bound df (account_id r)) as Hb.
  rewrite (rapid_block_rule _ _ _ _ Hrow), rapid_rule_local.
  rewrite andb_true_iff, Z.ltb_lt, Z.leb_le.
  split; [exact Hb|]. split; [lia | reflexivity].
Qed.

(** ** The final flag, row by row *)

Lemma weekend_row_has_dates (df : DataFrame) (r : Txn) :
  In r df -> has_dates df && weekend r = weekend r.
Proof.
  intros Hin. destruct (weekend r) eqn:E; [|apply andb_false_r].
  rewrite (notna_row_has_dates df r Hin); auto.
  unfold weekend in E. unfold notna, isna. now destruct (date r).
Qed.

Lemma cell_fraud_detection_row
    (cfg : Config) (df : DataFrame) (i : nat) (r : Txn) :
  nth_error df i = Some r ->
  cell (fraud_detection cfg df) i
  = ((0 <? user_threshold cfg)
     && Qltb (inject_Z (user_threshold cfg)) (amount r))
    || ((0 <? rapid_txn_threshold cfg)
        && (rapid_txn_threshold cfg <=? account_rapid_count df (account_id r)))
    || outlier_flag df r
    || weekend r
    || isin (merchant r) (risky_merchants cfg).
Proof.
  intros Hrow. rewrite (cell_fraud_detection _ _ _ _ Hrow).
  rewrite (cell_high_value_alone _ _ _ _ Hrow), (rapid_block_rule _ _ _ _ Hrow),
    (cell_outlier_alone _ _ _ Hrow), (cell_weekend_alone _ _ _ Hrow),
    (cell_risky_alone _ _ _ _ Hrow).
  now rewrite rapid_rule_local, (weekend_row_has_dates df r (nth_error_In _ _ Hrow)).
Qed.

Lemma weekend_spec (r : Txn) :
  weekend r = true <-> exists t, date r = Some t /\ 5 <= weekday t.
Proof.
  unfold weekend. destruct (date r) as [t|].
  - rewrite Z.leb_le. split.
    + intros H. now exists t.
    + now intros (t' & [= <-] & H).
  - split; [discriminate | now intros (t & [=] & _)].
Qed.

Lemma outlier_flag_spec (df : DataFrame) (r : Txn) :
  outlier_flag df r = true
  <-> exists m, acct_mean df r = Some m
        /\ fgt (of_cell (amount r)) (fadd m (fmul ftwo (acct_std df r))) = true.
Proof.
  unfold outlier_flag, exceeds. destruct (acct_mean df r) as [m|].
  - split; [intros H; now exists m | now intros (m' & [= <-] & H)].
  - split; [discriminate | now intros (m & [=] & _)].
Qed.

(** X5.  The table of flagged rows holds exactly the rows of the filtered
    frame for which at least one of five things holds: the amount is above a
    positive amount threshold; the account has reached a positive rapid
    threshold; the cell of the amount is above the account's mean plus
    twice its standard deviation, in float64; the timestamp falls on a
    Saturday or Sunday; the merchant is a selected one.  Every flagged row
    is a row of the input. *)
Theorem flagged_table_rows
    (cfg : Config) (df0 : DataFrame) (rep : Report) (r : Txn) :
  evaluate cfg df0 = Returned rep ->
  (In r (flagged_df rep) <->
     In r (rows rep)
     /\ ((0 < user_threshold cfg
          /\ (inject_Z (user_threshold cfg) < amount r)%Q)
         \/ (0 < rapid_txn_threshold cfg
             /\ rapid_txn_threshold cfg
                <= account_rapid_count (rows rep) (account_id r))
         \/ (exists m, acct_mean (rows rep) r = Some m
               /\ fgt (of_cell (amount r))
                      (fadd m (fmul ftwo (acct_std (rows rep) r))) = true)
         \/ (exists t, date r = Some t /\ 5 <= weekday t)
         \/ In (merchant r) (risky_merchants cfg)))
  /\ (In r (flagged_df rep) -> In r df0).
Proof.
  intros H. destruct (evaluate_fields _ _ _ H)
    as (_ & Hrows & _ & _ & _ & _ & _ & Hfdf & _).
  rewrite Hfdf, Hrows. set (df := date_filter cfg df0).
  assert (Hcell : forall i, nth_error df i = Some r ->
            (cell (fraud_detection cfg df) i = true <->
             (0 < user_threshold cfg
              /\ (inject_Z (user_threshold cfg) < amount r)%Q)
             \/ (0 < rapid_txn_threshold cfg
                 /\ rapid_txn_threshold cfg
                    <= account_rapid_count df (account_id r))
             \/ (exists m, acct_mean df r = Some m
                   /\ fgt (of_cell (amount r))
                          (fadd m (fmul ftwo (acct_std df r))) = true)
             \/ (exists t, date r = Some t /\ 5 <= weekday t)
             \/ In (merchant r) (risky_merchants cfg))).
  { intros i Hi. rewrite (cell_fraud_detection_row _ _ _ _ Hi).
    rewrite !orb_true_iff, !andb_true_iff, !Z.ltb_lt, Z.leb_le, Qltb_lt,
      outlier_flag_spec, weekend_spec, isin_In. tauto. }
  assert (Hiff : In r (select df (fraud_detection cfg df)) <->
                 In r df /\ exists i, nth_error df i = Some r
                                      /\ cell (fraud_detection cfg df) i = true).
  { rewrite select_In. split.
    - intros (i & Hi & Hc). split; [now apply nth_error_In with i|]. eauto.
    - intros [_ Hex]. exact Hex. }
  split.
  - rewrite Hiff. split.
    + intros (Hin & i & Hi & Hc). split; auto. now apply (Hcell i Hi).
    + intros (Hin & Hd). split; auto.
      destruct (In_nth_error _ _ Hin) as [i Hi]. exists i. split; auto.
      now apply (Hcell i Hi).
  - intros Hin. apply Hiff in Hin. destruct Hin as [Hin _].
    unfold df, date_filter in Hin.
    destruct (start_date cfg), (end_date cfg); auto.
    destruct (has_dates df0); auto. now apply filter_In in Hin.
Qed.

(** X6.  The final flag of a row depends on the configuration, the row and
    the rows of the same account only: in two frames that hold the row and
    agree on its account's rows, the row gets the same flag, whatever the
    other accounts contain. *)
Theorem flag_depends_on_own_account
    (cfg : Config) (df df' : DataFrame) (i j : nat) (r : Txn) :
  nth_error df i = Some r -> nth_error df' j = Some r ->
  group_of df (account_id r) = group_of df' (account_id r) ->
  cell (fraud_detection cfg df) i = cell (fraud_detection cfg df') j.
Proof.
  intros Hi Hj Hg.
  rewrite (cell_fraud_detection_row _ _ _ _ Hi),
    (cell_fraud_detection_row _ _ _ _ Hj).
  unfold account_rapid_count, outlier_flag, acct_mean, acct_std, transform.
  now rewrite Hg.
Qed.

(** ** Composing date filters *)

Lemma in_window_has_dates (s e : Z) (df : DataFrame) :
  filter (in_window s e) df <> [] ->
  has_dates (filter (in_window s e) df) = true.
Proof.
  intros Hne. destruct (filter (in_window s e) df) as [|x l] eqn:E;
    [congruence|].
  assert (Hx : In x (filter (in_window s e) df)) by (rewrite E; now left).
  apply notna_row_has_dates with x; [now left|].
  apply filter_In in Hx. now apply in_window_notna with s e.
Qed.

Lemma date_filter_nil (cfg : Config) : date_filter cfg [] = [].
Proof. unfold date_filter. now destruct (start_date cfg), (end_date cfg). Qed.

Lemma filter_idem {A : Type} (f : A -> bool) (l : list A) :
  filter f (filter f l) = filter f l.
Proof. now apply filter_filter_absorb. Qed.

Lemma date_filter_incl (cfg : Config) (df : DataFrame) (r : Txn) :
  In r (date_filter cfg df) -> In r df.
Proof.
  unfold date_filter. destruct (start_date cfg), (end_date cfg); auto.
  destruct (has_dates df); auto. intros H. now apply filter_In in H.
Qed.

Lemma filter_length_le {A : Type} (f : A -> bool) (l : list A) :
  (List.length (filter f l) <= List.length l)%nat.
Proof.
  induction l as [|x l IH]; simpl; auto. destruct (f x); simpl; lia.
Qed.

Lemma date_filter_twice (cfg : Config) (df : DataFrame) :
  date_filter cfg (date_filter cfg df) = date_filter cfg df.
Proof.
  destruct (start_date cfg) as [s|] eqn:Es, (end_date cfg) as [e|] eqn:Ee,
    (has_dates df) eqn:Hd;
    try (assert (Hskip : date_filter cfg df = df)
           by (apply date_filter_skipped; auto);
         now rewrite !Hskip).
  rewrite (date_filter_applied _ _ _ _ Es Ee Hd).
  destruct (filter (in_window s e) df) as [|x l] eqn:E;
    [apply date_filter_nil|].
  rewrite <- E.
  rewrite (date_filter_applied cfg _ s e Es Ee).
  - apply filter_idem.
  - apply in_window_has_dates. rewrite E. discriminate.
Qed.

(** X7.  Filtering an already filtered frame again changes nothing, so the
    evaluation of the filtered frame is the evaluation of the input; the
    filter only ever removes rows; and when it is applied and keeps a row,
    every kept row has a timestamp, so the detectors that need timestamps
    stay switched on. *)
Theorem date_filter_idempotent (cfg : Config) (df : DataFrame) :
  date_filter cfg (date_filter cfg df) = date_filter cfg df
  /\ evaluate cfg (date_filter cfg df) = evaluate cfg df
  /\ (forall r, In r (date_filter cfg df) -> In r df)
  /\ (List.length (date_filter cfg df) <= List.length df)%nat
  /\ (forall s e, start_date cfg = Some s -> end_date cfg = Some e ->
        has_dates df = true -> date_filter cfg df <> [] ->
        has_dates (date_filter cfg df) = true
        /\ forall r, In r (date_filter cfg df) -> notna r = true).
Proof.
  split; [apply date_filter_twice|]. split; [|split; [|split]].
  - unfold evaluate. now rewrite date_filter_twice.
  - apply date_filter_incl.
  - unfold date_filter. destruct (start_date cfg), (end_date cfg); auto.
    destruct (has_dates df); auto. apply filter_length_le.
  - intros s e Hs He Hd. rewrite (date_filter_applied _ _ _ _ Hs He Hd).
    intros Hne. split; [now apply in_window_has_dates|].
    intros r Hr. apply filter_In in Hr. now apply in_window_notna with s e.
Qed.

Lemma in_window_wider (s e s' e' : Z) (r : Txn) :
  s' <= s -> e <= e' -> in_window s e r = true -> in_window s' e' r = true.
Proof.
  intros Hs He. rewrite !in_window_spec. intros (t & Ht & H).
  exists t. split; auto. unfold to_datetime, ns_per_day, ns_per_second in *.
  lia.
Qed.

(** X8.  Widening the date window (an earlier start, a later end) keeps
    every row the narrower window kept, and filtering by the wide window
    first and by the narrow one afterwards gives what the narrow window
    gives on its own. *)
Theorem date_filter_nested_windows
    (cfg cfg' : Config) (df : DataFrame) (s e s' e' : Z) :
  start_date cfg = Some s -> end_date cfg = Some e ->
  start_date cfg' = Some s' -> end_date cfg' = Some e' ->
  s' <= s -> e <= e' ->
  (forall r, In r (date_filter cfg df) -> In r (date_filter cfg' df))
  /\ (List.length (date_filter cfg df) <= List.length (date_filter cfg' df))%nat
  /\ date_filter cfg (date_filter cfg' df) = date_filter cfg df.
Proof.
  intros Hs He Hs' He' Hss Hee.
  destruct (has_dates df) eqn:Hd.
  - rewrite (date_filter_applied _ _ _ _ Hs He Hd),
      (date_filter_applied _ _ _ _ Hs' He' Hd).
    assert (Habs : filter (in_window s e) (filter (in_window s' e') df)
                   = filter (in_window s e) df).
    { apply filter_filter_absorb. intros x. now apply in_window_wider. }
    split; [|split].
    + intros r Hr. apply filter_In in Hr. apply filter_In.
      split; [tauto|]. now apply in_window_wider with s e.
    + rewrite <- Habs. apply filter_length_le.
    + destruct (filter (in_window s' e') df) as [|x l] eqn:E.
      * rewrite date_filter_nil. exact Habs.
      * rewrite <- E in *. rewrite (date_filter_applied cfg _ s e Hs He).
        -- exact Habs.
        -- apply in_window_has_dates. rewrite E. discriminate.
  - rewrite !(date_filter_skipped cfg df), !(date_filter_skipped cfg' df)
      by auto.
    split; [auto|]. split; [lia|]. apply date_filter_skipped. auto.
Qed.

(** ** Cleaning *)

Lemma len_nonneg {A : Type} (l : list A) : 0 <= len l.
Proof. unfold len. lia. Qed.

Lemma assign_merchant_length (mp : Mapping) (df : list RawRow) :
  len (assign_merchant mp df) = len df.
Proof.
  unfold assign_merchant, len. destruct (merchant_col mp); auto.
  now rewrite length_map.
Qed.

Lemma existsb_filter_keep {A : Type} (h keep : A -> bool) (l : list A) :
  (forall x, h x = true -> keep x = true) ->
  existsb h (filter keep l) = existsb h l.
Proof.
  intros H. induction l as [|x l IH]; simpl; auto.
  destruct (keep x) eqn:Ek; simpl.
  - now rewrite IH.
  - rewrite IH. destruct (h x) eqn:Eh; auto. apply H in Eh. congruence.
Qed.

Lemma existsb_assign_merchant (mp : Mapping) (h h' : RawRow -> bool)
    (df : list RawRow) :
  (forall r m, h (mkRaw (raw_amount r) (raw_account r) (raw_type r) m
                        (raw_date r) (raw_other r)) = h' r) ->
  (forall r, h r = h' r) ->
  existsb h (assign_merchant mp df) = existsb h' df.
Proof.
  intros H1 H2. unfold assign_merchant. destruct (merchant_col mp).
  - induction df as [|r df IH]; simpl; auto. now rewrite H2, IH.
  - induction df as [|r df IH]; simpl; auto. now rewrite H1, IH.
Qed.

Lemma keep_some_filter {A B : Type} (f : A -> option B) (keep : A -> bool)
    (l : list A) :
  (forall x, keep x = false -> f x = None) ->
  keep_some f (filter keep l) = keep_some f l.
Proof.
  intros H. induction l as [|x l IH]; simpl; auto.
  destruct (keep x) eqn:Ek; simpl.
  - now rewrite IH.
  - now rewrite (H x Ek).
Qed.

Lemma keep_some_length {A B : Type} (f : A -> option B) (l : list A) :
  len (keep_some f l) + len (filter (fun x => is_none (f x)) l) = len l.
Proof.
  unfold len.
  assert (H : (List.length (keep_some f l)
               + List.length (filter (fun x => is_none (f x)) l)
               = List.length l)%nat).
  { induction l as [|x l IH]; simpl; auto. destruct (f x); simpl; lia. }
  lia.
Qed.

Lemma existsb_true_iff {A : Type} (h : A -> bool) (l : list A) :
  existsb h l = true <-> exists x, In x l /\ h x = true.
Proof. apply existsb_exists. Qed.

Lemma existsb_false_iff {A : Type} (h : A -> bool) (l : list A) :
  existsb h l = false <-> forall x, In x l -> h x = false.
Proof.
  induction l as [|x l IH]; simpl.
  - split; [intros _ y [] | auto].
  - rewrite orb_false_iff, IH. split.
    + intros [H1 H2] y [<- | Hy]; auto.
    + intros H. split; [apply H; now left | intros y Hy; apply H; now right].
Qed.

(** The rows that line 59 drops have no amount, so leaving them in changes
    neither which columns line 60 keeps nor which rows survive line 62:
    [prepare] read off the table as it was uploaded. *)
Lemma prepare_direct (mp : Mapping) (raw : list RawRow) :
  prepare mp raw
  = if negb (existsb (fun r => negb (is_missing (raw_amount r))) raw)
    then KeyError ColAmount
    else if negb (existsb (fun r => negb (is_none (raw_type r))) raw)
    then KeyError ColType
    else if negb (existsb (fun r => negb (is_none (raw_account r))) raw)
    then KeyError ColAccount
    else if date_col mp
            && negb (existsb (fun r => negb (is_missing (raw_date r))) raw)
    then KeyError ColDate
    else if merchant_col mp
            && negb (existsb (fun r => negb (is_none (raw_merchant r))) raw)
    then KeyError ColMerchant
    else Prepared (keep_some (finish_row mp) (assign_merchant mp raw))
                  (len raw
                   - len (keep_some (finish_row mp) (assign_merchant mp raw))).
Proof.
  unfold prepare, column_kept.
  set (A := assign_merchant mp raw).
  set (keep := fun r => negb (row_all_na mp r)).
  assert (Hamt : existsb (fun r => negb (is_missing (raw_amount r)))
                   (filter keep A)
                 = existsb (fun r => negb (is_missing (raw_amount r))) raw).
  { rewrite existsb_filter_keep.
    - now apply existsb_assign_merchant.
    - intros r H. unfold keep, row_all_na.
      now destruct (is_missing (raw_amount r)). }
  assert (Htyp : existsb (fun r => negb (is_none (raw_type r))) (filter keep A)
                 = existsb (fun r => negb (is_none (raw_type r))) raw).
  { rewrite existsb_filter_keep.
    - now apply existsb_assign_merchant.
    - intros r H. unfold keep, row_all_na.
      destruct (is_none (raw_type r)); [discriminate|].
      now rewrite !andb_false_r. }
  assert (Hacc : existsb (fun r => negb (is_none (raw_account r)))
                   (filter keep A)
                 = existsb (fun r => negb (is_none (raw_account r))) raw).
  { rewrite existsb_filter_keep.
    - now apply existsb_assign_merchant.
    - intros r H. unfold keep, row_all_na.
      destruct (is_none (raw_account r)); [discriminate|].
      now rewrite !andb_false_r. }
  assert (Hdat : date_col mp = true ->
                 existsb (fun r => negb (is_missing (raw_date r)))
                   (filter keep A)
                 = existsb (fun r => negb (is_missing (raw_date r))) raw).
  { intros Hd. rewrite existsb_filter_keep.
    - now apply existsb_assign_merchant.
    - intros r H. unfold keep, row_all_na. rewrite Hd.
      destruct (is_missing (raw_date r)); [discriminate|].
      now rewrite !andb_false_r. }
  assert (Hmer : existsb (fun r => negb (is_none (raw_merchant r)))
                   (filter keep A)
                 = existsb (fun r => negb (is_none (raw_merchant r))) A).
  { apply existsb_filter_keep. intros r H. unfold keep, row_all_na.
    destruct (is_none (raw_merchant r)); [discriminate|].
    now rewrite !andb_false_r. }
  assert (Hrows : keep_some (finish_row mp) (filter keep A)
                  = keep_some (finish_row mp) A).
  { apply keep_some_filter. intros r H. unfold keep in H.
    apply negb_false_iff in H. unfold row_all_na in H. unfold finish_row.
    destruct (raw_amount r); try reflexivity. simpl in H. discriminate. }
  assert (Hlen : len A = len raw) by apply assign_merchant_length.
  rewrite Hamt, Htyp, Hacc, Hmer, Hrows, Hlen.
  destruct (existsb (fun r => negb (is_missing (raw_amount r))) raw) eqn:Ea;
    [|reflexivity].
  assert (Hm2 : negb (existsb (fun r => negb (is_none (raw_merchant r))) A)
                = merchant_col mp
                  && negb (existsb (fun r => negb (is_none (raw_merchant r)))
                             raw)).
  { unfold A, assign_merchant. destruct (merchant_col mp); [reflexivity|].
    destruct raw; [discriminate Ea | reflexivity]. }
  rewrite Hm2.
  destruct (existsb (fun r => negb (is_none (raw_type r))) raw); [|reflexivity].
  destruct (existsb (fun r => negb (is_none (raw_account r))) raw);
    [|reflexivity].
  cbn [negb].
  destruct (date_col mp) eqn:Ed; [|reflexivity].
  now rewrite (Hdat eq_refl).
Qed.

Lemma has_value_cell {A : Type} (f : RawRow -> Cell A) (raw : list RawRow) :
  (existsb (fun r => negb (is_missing (f r))) raw = true
   <-> exists r, In r raw /\ f r <> Missing)
  /\ (existsb (fun r => negb (is_missing (f r))) raw = false
      <-> forall r, In r raw -> f r = Missing).
Proof.
  rewrite existsb_true_iff, existsb_false_iff. split; split.
  - intros (r & Hin & H). exists r. split; auto. now destruct (f r).
  - intros (r & Hin & H). exists r. split; auto. now destruct (f r).
  - intros H r Hin. specialize (H r Hin). now destruct (f r).
  - intros H r Hin. now rewrite (H r Hin).
Qed.

Lemma has_value_option {A : Type} (f : RawRow -> option A) (raw : list RawRow) :
  (existsb (fun r => negb (is_none (f r))) raw = true
   <-> exists r, In r raw /\ f r <> None)
  /\ (existsb (fun r => negb (is_none (f r))) raw = false
      <-> forall r, In r raw -> f r = None).
Proof.
  rewrite existsb_true_iff, existsb_false_iff. split; split.
  - intros (r & Hin & H). exists r. split; auto. now destruct (f r).
  - intros (r & Hin & H). exists r. split; auto. now destruct (f r).
  - intros H r Hin. specialize (H r Hin). now destruct (f r).
  - intros H r Hin. now rewrite (H r Hin).
Qed.


Lemma prepare_rows (mp : Mapping) (raw : list RawRow)
    (rows : list CleanRow) (n : Z) :
  prepare mp raw = Prepared rows n ->
  rows = keep_some (finish_row mp) (assign_merchant mp raw)
  /\ n = len raw - len rows.
Proof.
  rewrite prepare_direct.
  repeat match goal with
         | |- (if ?b then _ else _) = _ -> _ => destruct b; try discriminate
         end.
  intros [= <- <-]. split; reflexivity.
Qed.

Lemma keep_some_map {A B C : Type} (f : B -> option C) (h : A -> B)
    (l : list A) :
  keep_some f (map h l) = keep_some (fun x => f (h x)) l.
Proof.
  induction l as [|x l IH]; simpl; auto. destruct (f (h x)); now rewrite IH.
Qed.

Lemma finish_assigned (mp : Mapping) (raw : list RawRow) :
  keep_some (finish_row mp) (assign_merchant mp raw)
  = keep_some
      (fun r =>
         match coerce (raw_amount r) with
         | Some q =>
             Some (mkClean q (fillna_unknown (raw_account r))
                     (fillna_unknown (raw_type r))
                     (if merchant_col mp then raw_merchant r
                      else Some "unknown"%string)
                     (if date_col mp then coerce (raw_date r) else None))
         | None => None
         end) raw.
Proof.
  unfold assign_merchant. destruct (merchant_col mp).
  - reflexivity.
  - rewrite keep_some_map. reflexivity.
Qed.

(** X12.  When the preparation succeeds, the cleaned rows are, in their
    original order, exactly the uploaded rows whose amount is numeric: each
    keeps its amount, has "unknown" for a missing account or type, has the
    merchant "unknown" when no merchant column is mapped and no timestamp
    when no date column is mapped or the date does not parse.  The number
    of rows reported as dropped is the number of rows whose amount is
    missing or not numeric. *)
Theorem prepare_keeps_numeric_rows
    (mp : Mapping) (raw : list RawRow) (rows : list CleanRow) (n : Z) :
  prepare mp raw = Prepared rows n ->
  Forall2 (fun r c =>
             raw_amount r = Value (c_amount c)
             /\ c_account c = fillna_unknown (raw_account r)
             /\ c_type c = fillna_unknown (raw_type r)
             /\ c_merchant c = (if merchant_col mp then raw_merchant r
                                else Some "unknown"%string)
             /\ c_date c = (if date_col mp then coerce (raw_date r) else None))
          (filter (fun r => negb (is_none (coerce (raw_amount r)))) raw) rows
  /\ n = len raw - len rows
  /\ n = len (filter (fun r => is_none (coerce (raw_amount r))) raw)
  /\ 0 <= n <= len raw.
Proof.
  intros H. destruct (prepare_rows _ _ _ _ H) as [-> ->].
  rewrite finish_assigned. clear H.
  set (f := fun r : RawRow => match coerce (raw_amount r) with
                              | Some q => _ | None => None end).
  assert (Hcount : len (keep_some f raw)
                   + len (filter (fun r => is_none (coerce (raw_amount r))) raw)
                   = len raw).
  { rewrite <- (keep_some_length f raw). f_equal. f_equal.
    apply filter_ext. intros r. unfold f. now destruct (coerce (raw_amount r)). }
  pose proof (len_nonneg (keep_some f raw)).
  pose proof (len_nonneg (filter (fun r => is_none (coerce (raw_amount r))) raw)).
  split; [|lia]. clear.
  induction raw as [|r raw IH]; [constructor|].
  cbn [filter keep_some]. unfold f at 1. unfold coerce at 1 2.
  destruct (raw_amount r) as [|q|] eqn:Er; cbn [is_none negb]; try apply IH.
  constructor; [|apply IH]. cbn. rewrite ?Er. repeat split.
Qed.

Lemma existsb_related {A : Type} (R : A -> A -> Prop) (f : A -> bool)
    (l l' : list A) :
  Forall2 R l l' -> (forall x y, R x y -> f x = f y) ->
  existsb f l = existsb f l'.
Proof.
  intros H Hf. induction H as [|x y l l' Hxy _ IH]; simpl; auto.
  now rewrite (Hf x y Hxy), IH.
Qed.

Lemma keep_some_related {A B : Type} (R : A -> A -> Prop) (f : A -> option B)
    (l l' : list A) :
  Forall2 R l l' -> (forall x y, R x y -> f x = f y) ->
  keep_some f l = keep_some f l'.
Proof.
  intros H Hf. induction H as [|x y l l' Hxy _ IH]; simpl; auto.
  now rewrite (Hf x y Hxy), IH.
Qed.

(** X13.  Only the mapped columns count: two uploads whose rows agree on
    the amount, the account and the type, on the merchant if a merchant
    column is mapped and on the date if a date column is mapped, are
    prepared alike, whatever their other columns hold; so the removal of
    entirely empty rows at line 59 never changes the outcome. *)
Theorem prepare_reads_mapped_columns_only
    (mp : Mapping) (raw raw' : list RawRow) :
  Forall2 (fun r r' =>
             raw_amount r = raw_amount r'
             /\ raw_account r = raw_account r'
             /\ raw_type r = raw_type r'
             /\ (merchant_col mp = true -> raw_merchant r = raw_merchant r')
             /\ (date_col mp = true -> raw_date r = raw_date r'))
          raw raw' ->
  prepare mp raw = prepare mp raw'.
Proof.
  intros H. rewrite !prepare_direct, !finish_assigned.
  assert (Hlen : len raw = len raw')
    by (unfold len; now rewrite (Forall2_length H)).
  rewrite Hlen.
  rewrite (existsb_related _ (fun r => negb (is_missing (raw_amount r))) _ _ H)
    by (intros x y (E & _); now rewrite E).
  rewrite (existsb_related _ (fun r => negb (is_none (raw_type r))) _ _ H)
    by (intros x y (_ & _ & E & _); now rewrite E).
  rewrite (existsb_related _ (fun r => negb (is_none (raw_account r))) _ _ H)
    by (intros x y (_ & E & _); now rewrite E).
  rewrite (keep_some_related _ _ _ _ H).
  2:{ intros x y (E1 & E2 & E3 & E4 & E5). rewrite E1, E2, E3.
      destruct (merchant_col mp), (date_col mp);
        rewrite ?(E4 eq_refl), ?(E5 eq_refl); reflexivity. }
  destruct (date_col mp) eqn:Ed, (merchant_col mp) eqn:Em; cbn [andb].
  - rewrite (existsb_related _ (fun r => negb (is_missing (raw_date r))) _ _ H)
      by (intros x y (_ & _ & _ & _ & E); now rewrite (E eq_refl)).
    rewrite (existsb_related _ (fun r => negb (is_none (raw_merchant r))) _ _ H)
      by (intros x y (_ & _ & _ & E & _); now rewrite (E eq_refl)).
    reflexivity.
  - rewrite (existsb_related _ (fun r => negb (is_missing (raw_date r))) _ _ H)
      by (intros x y (_ & _ & _ & _ & E); now rewrite (E eq_refl)).
    reflexivity.
  - rewrite (existsb_related _ (fun r => negb (is_none (raw_merchant r))) _ _ H)
      by (intros x y (_ & _ & _ & E & _); now rewrite (E eq_refl)).
    reflexivity.
  - reflexivity.
Qed.

Lemma keep_some_Forall {A B : Type} (f : A -> option B) (P : B -> Prop)
    (l : list A) :
  (forall x y, f x = Some y -> P y) -> Forall P (keep_some f l).
Proof.
  intros H. induction l as [|x l IH]; simpl; [constructor|].
  destruct (f x) as [y|] eqn:E; auto. constructor; auto. now apply H with x.
Qed.

Lemma to_frame_rows (l : list CleanRow) (df : DataFrame) :
  to_frame l = Some df ->
  Forall2 (fun c r => amount r = c_amount c /\ account_id r = c_account c
                      /\ type_ r = c_type c /\ c_merchant c = Some (merchant r)
                      /\ date r = c_date c) l df.
Proof.
  revert df. induction l as [|c l IH]; intros df; simpl.
  - intros [= <-]. constructor.
  - unfold to_txn. destruct (c_merchant c) as [m|] eqn:Em; [|discriminate].
    destruct (to_frame l) as [df'|]; [|discriminate].
    intros [= <-]. constructor; [|now apply IH]. cbn. now rewrite Em.
Qed.

Lemma to_frame_defined (l : list CleanRow) :
  Forall (fun c => c_merchant c <> None) l -> exists df, to_frame l = Some df.
Proof.
  induction 1 as [|c l Hc _ [df IH]]; simpl; [eauto|].
  unfold to_txn. destruct (c_merchant c); [|congruence].
  rewrite IH. eauto.
Qed.

Lemma unique_In (x : string) (l : list string) : In x (unique l) <-> In x l.
Proof.
  induction l as [|a l IH]; simpl; [tauto|].
  rewrite filter_In, IH, negb_true_iff, String.eqb_neq.
  destruct (string_dec a x) as [-> | Hne]; [tauto|].
  split; [tauto|]. intros [H | H]; [contradiction | right]. split; auto.
Qed.

Lemma unique_NoDup (l : list string) : NoDup (unique l).
Proof.
  induction l as [|a l IH]; simpl; constructor.
  - rewrite filter_In, String.eqb_refl. intros [_ H]. discriminate.
  - now apply NoDup_filter.
Qed.

Lemma no_dates_blocks_off (cfg : Config) (df : DataFrame) (i : nat) :
  has_dates df = false ->
  cell (alone (rapid_block cfg df) df) i = false
  /\ cell (alone (weekend_block df) df) i = false.
Proof.
  intros Hd. unfold alone, rapid_block, weekend_block.
  rewrite Hd, andb_false_r. split; apply cell_repeat_false.
Qed.

(** X14.  What the two optional columns default to.  Without a merchant
    column every cleaned row has the merchant "unknown", and the selector
    of risky merchants offers nothing else.  Without a date column no
    cleaned row has a timestamp: the date filter never applies, and the
    rapid and weekend detectors never flag a row, whatever the sidebar
    holds. *)
Theorem unmapped_columns_defaults
    (mp : Mapping) (raw : list RawRow) (rows : list CleanRow) (n : Z) :
  prepare mp raw = Prepared rows n ->
  (merchant_col mp = false ->
     exists df, to_frame rows = Some df
       /\ (forall r, In r df -> merchant r = "unknown"%string)
       /\ incl (merchant_options df) ["unknown"%string])
  /\ (date_col mp = false ->
      forall df cfg, to_frame rows = Some df ->
        has_dates df = false
        /\ date_filter cfg df = df
        /\ forall i, cell (alone (rapid_block cfg df) df) i = false
                     /\ cell (alone (weekend_block df) df) i = false).
Proof.
  intros H. destruct (prepare_rows _ _ _ _ H) as [Hrows _].
  rewrite finish_assigned in Hrows. split.
  - intros Hm. rewrite Hm in Hrows.
    assert (Hall : Forall (fun c => c_merchant c = Some "unknown"%string) rows).
    { rewrite Hrows. apply keep_some_Forall. intros r c.
      destruct (coerce (raw_amount r)); [|discriminate]. now intros [= <-]. }
    destruct (to_frame_defined rows) as [df Hdf].
    { eapply Forall_impl; [|exact Hall]. intros c Hc. congruence. }
    exists df. split; [exact Hdf|].
    assert (Hunk : forall r, In r df -> merchant r = "unknown"%string).
    { pose proof (to_frame_rows _ _ Hdf) as H2. clear - H2 Hall.
      induction H2 as [|c r l df Hcr _ IH]; intros r' [].
      - subst r'. inversion Hall as [|? ? Hc _]; subst.
        destruct Hcr as (_ & _ & _ & Hm & _). congruence.
      - apply IH; auto. now inversion Hall. }
    split; [exact Hunk|].
    intros m Hin. unfold merchant_options in Hin. rewrite unique_In in Hin.
    apply in_map_iff in Hin. destruct Hin as (r & <- & Hr).
    left. symmetry. now apply Hunk.
  - intros Hd df cfg Hdf. rewrite Hd in Hrows.
    assert (Hall : Forall (fun c => c_date c = None) rows).
    { rewrite Hrows. apply keep_some_Forall. intros r c.
      destruct (coerce (raw_amount r)); [|discriminate]. now intros [= <-]. }
    assert (Hnone : has_dates df = false).
    { apply has_dates_false.
      pose proof (to_frame_rows _ _ Hdf) as H2. clear - H2 Hall.
      induction H2 as [|c r l df Hcr _ IH]; intros r' [].
      - subst r'. inversion Hall as [|? ? Hc _]; subst.
        destruct Hcr as (_ & _ & _ & _ & Hdate). congruence.
      - apply IH; auto. now inversion Hall. }
    split; [exact Hnone|]. split; [apply date_filter_skipped; auto|].
    intros i. now apply no_dates_blocks_off.
Qed.

(** ** Selecting risky merchants *)

Lemma merchant_options_spec (df : DataFrame) (m : string) :
  In m (merchant_options df) <-> exists r, In r df /\ merchant r = m.
Proof.
  unfold merchant_options. rewrite unique_In, in_map_iff.
  split; intros (r & H1 & H2); exists r; tauto.
Qed.

Lemma pct_positive (cfg : Config) (df0 : DataFrame) (rep : Report) :
  evaluate cfg df0 = Returned rep -> flagged_df rep <> [] ->
  (0 < flagged_pct rep)%Q.
Proof.
  intros H Hne. destruct (evaluate_fields _ _ _ H)
    as (Hdf & _ & _ & _ & _ & _ & _ & Hfdf & Hpct).
  set (df := date_filter cfg df0) in *.
  assert (Hpos : 0 < len df).
  { unfold len. destruct df; [congruence | simpl; lia]. }
  pose proof (select_length df (fraud_detection cfg df)) as Hsel.
  assert (Hrange : 0 <= len (select df (fraud_detection cfg df)) <= len df)
    by (unfold len; lia).
  destruct (Qdiv_share _ _ Hrange Hpos) as (Hb & H0 & _).
  rewrite Hpct.
  destruct (Qlt_le_dec 0 (inject_Z (len (select df (fraud_detection cfg df)))
                          / inject_Z (len df) * 100)) as [Hlt | Hle]; auto.
  exfalso. apply Hne. rewrite Hfdf.
  assert (Hz : len (select df (fraud_detection cfg df)) = 0)
    by (apply H0; lra).
  unfold len in Hz. destruct (select df _); [reflexivity | discriminate].
Qed.

(** X15.  The selector of risky merchants (line 79) offers every merchant
    of the cleaned table once.  When the date filter leaves the table as it
    is, selecting any of the offered merchants flags at least one row: the
    evaluation returns, the flagged table is not empty and the flagged
    percentage is positive. *)
Theorem selected_merchant_flags_a_row (cfg : Config) (df0 : DataFrame) :
  risky_merchants cfg <> [] ->
  incl (risky_merchants cfg) (merchant_options df0) ->
  date_filter cfg df0 = df0 ->
  NoDup (merchant_options df0)
  /\ (forall m, In m (merchant_options df0)
                <-> exists r, In r df0 /\ merchant r = m)
  /\ exists rep, evaluate cfg df0 = Returned rep
       /\ flagged_df rep <> []
       /\ (0 < flagged_pct rep)%Q.
Proof.
  intros Hne Hincl Hsame.
  split; [apply unique_NoDup|]. split; [apply merchant_options_spec|].
  destruct (risky_merchants cfg) as [|m ms] eqn:Em; [congruence|].
  destruct (proj1 (merchant_options_spec df0 m)) as (r & Hr & Hm).
  { apply Hincl. now left. }
  destruct (evaluate_nonempty cfg df0) as [rep Hrep].
  { rewrite Hsame. intros E. rewrite E in Hr. destruct Hr. }
  exists rep. split; [exact Hrep|].
  assert (Hflag : flagged_df rep <> []).
  { destruct (evaluate_fields _ _ _ Hrep)
      as (_ & _ & _ & _ & _ & _ & _ & Hfdf & _).
    rewrite Hsame in Hfdf.
    destruct (In_nth_error _ _ Hr) as [i Hi].
    assert (Hin : In r (flagged_df rep)).
    { rewrite Hfdf. apply select_In. exists i. split; auto.
      rewrite (cell_fraud_detection_row _ _ _ _ Hi), Em, Hm.
      cbn [isin existsb]. rewrite String.eqb_refl. cbn [orb].
      now rewrite orb_true_r. }
    intros E. rewrite E in Hin. destruct Hin. }
  split; [exact Hflag | now apply pct_positive with cfg df0].
Qed.

(** X16.  Raising the amount threshold or the rapid threshold, both
    staying positive and everything else unchanged, never adds a flag: a
    row flagged under the higher thresholds is flagged under the lower
    ones. *)
Theorem raising_thresholds_never_adds_flags
    (cfg cfg' : Config) (df : DataFrame) (i : nat) (r : Txn) :
  nth_error df i = Some r ->
  risky_merchants cfg' = risky_merchants cfg ->
  0 < user_threshold cfg <= user_threshold cfg' ->
  0 < rapid_txn_threshold cfg <= rapid_txn_threshold cfg' ->
  (cell (alone (high_value_block cfg' df) df) i = true ->
   cell (alone (high_value_block cfg df) df) i = true)
  /\ (cell (alone (rapid_block cfg' df) df) i = true ->
      cell (alone (rapid_block cfg df) df) i = true)
  /\ (cell (fraud_detection cfg' df) i = true ->
      cell (fraud_detection cfg df) i = true).
Proof.
  intros Hrow Hrisky Hu Ht.
  rewrite !(cell_high_value_alone _ _ _ _ Hrow),
    !(rapid_block_rule _ _ _ _ Hrow), !rapid_rule_local,
    !(cell_fraud_detection_row _ _ _ _ Hrow), Hrisky.
  assert (Hhv : (0 <? user_threshold cfg')
                && Qltb (inject_Z (user_threshold cfg')) (amount r) = true ->
                (0 <? user_threshold cfg)
                && Qltb (inject_Z (user_threshold cfg)) (amount r) = true).
  { rewrite !andb_true_iff, !Z.ltb_lt, !Qltb_lt. intros [_ H].
    split; [lia|]. apply Qle_lt_trans with (inject_Z (user_threshold cfg')); auto.
    rewrite <- Zle_Qle. lia. }
  assert (Hrp : (0 <? rapid_txn_threshold cfg')
                && (rapid_txn_threshold cfg'
                    <=? account_rapid_count df (account_id r)) = true ->
                (0 <? rapid_txn_threshold cfg)
                && (rapid_txn_threshold cfg
                    <=? account_rapid_count df (account_id r)) = true).
  { rewrite !andb_true_iff, !Z.ltb_lt, !Z.leb_le. lia. }
  split; [exact Hhv|]. split; [exact Hrp|].
  rewrite !orb_true_iff. intuition.
Qed.

(** ** The order of the rows *)

Lemma filter_perm {A : Type} (f : A -> bool) (l l' : list A) :
  Permutation l l' -> Permutation (filter f l) (filter f l').
Proof.
  induction 1 as [| x l l' _ IH | x y l | l l' l'' _ IH1 _ IH2]; simpl.
  - constructor.
  - destruct (f x); auto.
  - destruct (f x), (f y); auto. apply perm_swap.
  - now transitivity (filter f l').
Qed.

Lemma sorted_perm_equal {A : Type} (R : A -> A -> Prop) (l l' : list A) :
  (forall x y, R x y -> R y x -> x = y) ->
  StronglySorted R l -> StronglySorted R l' -> Permutation l l' -> l = l'.
Proof.
  intros Hanti Hs. revert l'.
  induction Hs as [|a l Hs IH Ha]; intros l' Hs' Hp.
  - apply Permutation_nil in Hp. now subst.
  - destruct l' as [|b l'].
    + symmetry in Hp. apply Permutation_nil in Hp. discriminate.
    + inversion Hs' as [|? ? Hs'' Hb]; subst.
      assert (Hab : a = b).
      { assert (Hin : In a (b :: l'))
          by (apply (Permutation_in _ Hp); now left).
        assert (Hin' : In b (a :: l))
          by (apply (Permutation_in _ (Permutation_sym Hp)); now left).
        destruct Hin as [E | Hin]; [now symmetry|].
        destruct Hin' as [E | Hin']; [exact E|].
        rewrite Forall_forall in Ha, Hb. apply Hanti; auto. }
      subst b. f_equal. apply IH; auto. now apply Permutation_cons_inv in Hp.
Qed.

Lemma na_last_le_antisym (c1 c2 : option Z) :
  na_last_le c1 c2 = true -> na_last_le c2 c1 = true -> c1 = c2.
Proof.
  destruct c1, c2; simpl; try discriminate; auto.
  rewrite !Z.leb_le. intros. f_equal. lia.
Qed.

Lemma sorted_dates (l : list Txn) :
  StronglySorted (fun x y => date_only_le x y = true) l ->
  StronglySorted (fun a b => na_last_le a b = true) (map date l).
Proof.
  induction 1 as [|x l _ IH Hall]; simpl; constructor; auto.
  rewrite Forall_map. exact Hall.
Qed.

Lemma deltas_by_dates (l l' : list Txn) (prev prev' : option Txn) :
  map date l = map date l' ->
  option_map date prev = option_map date prev' ->
  deltas prev l = deltas prev' l'.
Proof.
  revert l' prev prev'. induction l as [|x l IH]; intros [|y l'] prev prev';
    simpl; try discriminate; auto.
  intros [= Hxy Hl] Hprev. f_equal.
  - destruct prev, prev'; simpl in Hprev; try discriminate; auto.
    injection Hprev as ->. now rewrite Hxy.
  - apply IH; auto. simpl. now rewrite Hxy.
Qed.

Lemma account_rapid_count_perm (df df' : DataFrame) (a : string) :
  Permutation df df' ->
  account_rapid_count df a = account_rapid_count df' a.
Proof.
  intros Hp. unfold account_rapid_count. f_equal.
  apply deltas_by_dates; [|reflexivity].
  apply (sorted_perm_equal (fun a b => na_last_le a b = true)).
  - apply na_last_le_antisym.
  - apply sorted_dates, sort_values_sorted;
      [apply date_only_le_total | apply date_only_le_trans].
  - apply sorted_dates, sort_values_sorted;
      [apply date_only_le_total | apply date_only_le_trans].
  - apply Permutation_map.
    rewrite !sort_values_perm. unfold group_of. now apply filter_perm.
Qed.

Lemma has_dates_perm (df df' : DataFrame) :
  Permutation df df' -> has_dates df = has_dates df'.
Proof.
  intros Hp. unfold has_dates, isna_all. f_equal.
  apply eq_true_iff_eq. rewrite !forallb_forall. split; intros H r Hr; apply H.
  - now apply (Permutation_in _ (Permutation_sym Hp)).
  - now apply (Permutation_in _ Hp).
Qed.

Lemma date_filter_perm (cfg : Config) (df df' : DataFrame) :
  Permutation df df' -> Permutation (date_filter cfg df) (date_filter cfg df').
Proof.
  intros Hp. unfold date_filter. rewrite (has_dates_perm _ _ Hp).
  destruct (start_date cfg), (end_date cfg); auto.
  destruct (has_dates df'); auto. now apply filter_perm.
Qed.

Lemma series_extremes_perm (l l' : list Q) :
  Permutation l l' -> l <> [] ->
  exists mn mn' mx mx',
    series_min l = Some mn /\ series_min l' = Some mn'
    /\ series_max l = Some mx /\ series_max l' = Some mx'
    /\ (mn == mn')%Q /\ (mx == mx')%Q.
Proof.
  intros Hp Hne.
  assert (Hne' : l' <> [])
    by (intros ->; apply Permutation_sym, Permutation_nil in Hp; contradiction).
  destruct (series_bracket l Hne) as (mn & mx & E1 & E2 & _ & Hmn & Hmx & Hall).
  destruct (series_bracket l' Hne')
    as (mn' & mx' & E1' & E2' & _ & Hmn' & Hmx' & Hall').
  exists mn, mn', mx, mx'. do 4 (split; [assumption|]).
  pose proof (Permutation_in _ Hp Hmn) as H1.
  pose proof (Permutation_in _ Hp Hmx) as H2.
  pose proof (Permutation_in _ (Permutation_sym Hp) Hmn') as H3.
  pose proof (Permutation_in _ (Permutation_sym Hp) Hmx') as H4.
  split; apply Qle_antisym;
    first [apply Hall; assumption | apply Hall'; assumption].
Qed.


End Properties.

(** * The binary64 instance

    Two facts of IEEE-754 binary64, from the specification of the
    primitive floats.  A value alone in its group is not above the mean of
    the group: the compensated sum of one value is the value, dividing it
    by [1.0] changes nothing, and no value is above itself.  The standard
    deviation of two or more equal values is zero: Welford's mean stays
    the value and the sum of squared deviations stays zero (for an infinite
    value or [NaN] the result is [NaN], which [fillna(0)] replaces). *)

Lemma valid_finite (b : bool) (m : positive) (e : Z) :
  SpecFloat.valid_binary FloatOps.prec FloatOps.emax
    (SpecFloat.S754_finite b m e) = true ->
  Z.max (Zpos (SpecFloat.digits2_pos m) + e - 53) (-1074) = e /\ e <= 971.
Proof.
  unfold SpecFloat.valid_binary, SpecFloat.bounded,
    SpecFloat.canonical_mantissa, SpecFloat.fexp, SpecFloat.emin.
  intros H. apply andb_true_iff in H. destruct H as [H1 H2].
  apply Z.eqb_eq in H1. apply Z.leb_le in H2.
  change FloatOps.prec with 53 in *. change FloatOps.emax with 1024 in *.
  split; [exact H1 | exact H2].
Qed.

Lemma div_eucl_exact (q b : Z) : 0 < b -> Z.div_eucl (q * b) b = (q, 0).
Proof.
  intros Hb. pose proof (Z.div_mul q b ltac:(lia)) as Hd.
  pose proof (Z.mod_mul q b ltac:(lia)) as Hm.
  unfold Z.div, Z.modulo in Hd, Hm.
  destruct (Z.div_eucl (q * b) b) as [x y]. now subst.
Qed.

Lemma shr_fexp_canonical (m : positive) (e : Z) :
  Z.max (Zpos (SpecFloat.digits2_pos m) + e - 53) (-1074) = e ->
  SpecFloat.shr_fexp FloatOps.prec FloatOps.emax (Zpos m) e SpecFloat.loc_Exact
  = (SpecFloat.Build_shr_record (Zpos m) false false, e).
Proof.
  intros H. unfold SpecFloat.shr_fexp, SpecFloat.fexp, SpecFloat.emin,
    SpecFloat.Zdigits2.
  change FloatOps.prec with 53. change FloatOps.emax with 1024.
  change (3 - 1024 - 53) with (-1074). rewrite H, Z.sub_diag. reflexivity.
Qed.

Lemma round_canonical (b : bool) (m : positive) (e : Z) :
  Z.max (Zpos (SpecFloat.digits2_pos m) + e - 53) (-1074) = e -> e <= 971 ->
  SpecFloat.binary_round_aux FloatOps.prec FloatOps.emax b (Zpos m) e
    SpecFloat.loc_Exact
  = SpecFloat.S754_finite b m e.
Proof.
  intros H He. unfold SpecFloat.binary_round_aux.
  rewrite (shr_fexp_canonical m e H).
  cbn [SpecFloat.shr_m SpecFloat.loc_of_shr_record
         SpecFloat.round_nearest_even].
  rewrite (shr_fexp_canonical m e H). cbn [SpecFloat.shr_m].
  change (FloatOps.emax - FloatOps.prec) with 971.
  destruct (Z.leb_spec e 971); [reflexivity | lia].
Qed.

Lemma round_doubled (b : bool) (m : positive) (e : Z) :
  Z.max (Zpos (SpecFloat.digits2_pos m) + e - 53) (-1074) = e ->
  e <= 971 -> -1074 < e ->
  SpecFloat.binary_round_aux FloatOps.prec FloatOps.emax b (Zpos m~0) (e - 1)
    SpecFloat.loc_Exact
  = SpecFloat.S754_finite b m e.
Proof.
  intros H He Hlow. unfold SpecFloat.binary_round_aux.
  assert (Hs : SpecFloat.shr_fexp FloatOps.prec FloatOps.emax (Zpos m~0)
                 (e - 1) SpecFloat.loc_Exact
               = (SpecFloat.Build_shr_record (Zpos m) false false, e)).
  { unfold SpecFloat.shr_fexp, SpecFloat.fexp, SpecFloat.emin,
      SpecFloat.Zdigits2.
    change FloatOps.prec with 53. change FloatOps.emax with 1024.
    change (3 - 1024 - 53) with (-1074). cbn [SpecFloat.digits2_pos].
    rewrite Pos2Z.inj_succ.
    replace (Z.max (Z.succ (Zpos (SpecFloat.digits2_pos m)) + (e - 1) - 53)
                   (-1074) - (e - 1))
      with 1 by lia.
    cbn. f_equal. lia. }
  rewrite Hs.
  cbn [SpecFloat.shr_m SpecFloat.loc_of_shr_record
         SpecFloat.round_nearest_even].
  rewrite (shr_fexp_canonical m e H). cbn [SpecFloat.shr_m].
  change (FloatOps.emax - FloatOps.prec) with 971.
  destruct (Z.leb_spec e 971); [reflexivity | lia].
Qed.

(** [x / 1.0 = x] for a finite [x]. *)
Lemma SFdiv_one (b : bool) (m : positive) (e : Z) :
  SpecFloat.valid_binary FloatOps.prec FloatOps.emax
    (SpecFloat.S754_finite b m e) = true ->
  SpecFloat.SFdiv FloatOps.prec FloatOps.emax (SpecFloat.S754_finite b m e)
    (FloatOps.Prim2SF PrimFloat.one)
  = SpecFloat.S754_finite b m e.
Proof.
  intros Hv. apply valid_finite in Hv. destruct Hv as [Hc He].
  change (FloatOps.Prim2SF PrimFloat.one)
    with (SpecFloat.S754_finite false 4503599627370496 (-52)).
  unfold SpecFloat.SFdiv, SpecFloat.SFdiv_core_binary, SpecFloat.fexp,
    SpecFloat.emin, SpecFloat.Zdigits2.
  change (Zpos (SpecFloat.digits2_pos 4503599627370496)) with 53.
  change FloatOps.prec with 53. change FloatOps.emax with 1024.
  change (3 - 1024 - 53) with (-1074).
  rewrite xorb_false_r.
  destruct (Z.eq_dec e (-1074)) as [-> | Hne].
  - replace (Z.min (Z.max (Zpos (SpecFloat.digits2_pos m) + -1074
                            - (53 + -52) - 53) (-1074))
                   (-1074 - -52)) with (-1074) by lia.
    change (-1074 - -52 - -1074) with 52.
    rewrite Z.shiftl_mul_pow2 by lia.
    change (2 ^ 52) with 4503599627370496.
    rewrite div_eucl_exact by lia.
    change (SpecFloat.new_location 4503599627370496 0)
      with SpecFloat.loc_Exact.
    now apply round_canonical.
  - replace (Z.min (Z.max (Zpos (SpecFloat.digits2_pos m) + e
                            - (53 + -52) - 53) (-1074))
                   (e - -52)) with (e - 1) by lia.
    replace (e - -52 - (e - 1)) with 53 by lia.
    rewrite Z.shiftl_mul_pow2 by lia.
    replace (Zpos m * 2 ^ 53) with (Zpos m~0 * 4503599627370496) by lia.
    rewrite div_eucl_exact by lia.
    change (SpecFloat.new_location 4503599627370496 0)
      with SpecFloat.loc_Exact.
    apply round_doubled; lia.
Qed.

Lemma SFltb_irrefl (s : SpecFloat.spec_float) : SpecFloat.SFltb s s = false.
Proof.
  unfold SpecFloat.SFltb, SpecFloat.SFcompare.
  destruct s as [b | b | | b m e]; try reflexivity.
  - now destruct b.
  - rewrite Z.compare_refl.
    change (Pos.compare_cont Eq m m) with (Pos.compare m m).
    rewrite Pos.compare_refl. now destruct b.
Qed.

Lemma binary64_lone_value (x : PrimFloat.float) :
  PrimFloat.ltb
    (PrimFloat.add (kahan_mean [x])
                   (PrimFloat.mul PrimFloat.two PrimFloat.zero))
    x = false.
Proof.
  unfold kahan_mean. cbn [fold_left kahan_step fst List.length].
  change (Z2F (Z.of_nat 1)) with PrimFloat.one.
  change (PrimFloat.mul PrimFloat.two PrimFloat.zero) with PrimFloat.zero.
  rewrite FloatAxioms.ltb_spec, FloatAxioms.add_spec, FloatAxioms.div_spec,
    FloatAxioms.add_spec, FloatAxioms.sub_spec.
  change (FloatOps.Prim2SF PrimFloat.zero) with (SpecFloat.S754_zero false).
  pose proof (FloatAxioms.Prim2SF_valid x) as Hv.
  destruct (FloatOps.Prim2SF x) as [b | b | | b m e] eqn:E.
  - now destruct b.
  - now destruct b.
  - reflexivity.
  - unfold FloatAxioms.SF64sub, FloatAxioms.SF64add, FloatAxioms.SF64div.
    cbn [SpecFloat.SFsub SpecFloat.SFadd]. rewrite (SFdiv_one b m e Hv).
    cbn [SpecFloat.SFadd]. apply SFltb_irrefl.
Qed.

Lemma digits2_pos_size (p : positive) : SpecFloat.digits2_pos p = Pos.size p.
Proof. induction p; simpl; congruence. Qed.

Lemma digits2_pos_iter (p n : positive) :
  SpecFloat.digits2_pos (Pos.iter xO p n)
  = (SpecFloat.digits2_pos p + n)%positive.
Proof.
  induction n as [|n IH] using Pos.peano_ind.
  - simpl. lia.
  - rewrite Pos.iter_succ. cbn [SpecFloat.digits2_pos]. rewrite IH. lia.
Qed.

Lemma digits2_pos_bound (p : positive) :
  Zpos p < 2 ^ 53 -> Zpos (SpecFloat.digits2_pos p) <= 53.
Proof.
  intros H. rewrite digits2_pos_size.
  pose proof (Pos.size_le p) as Hle.
  apply Pos2Z.pos_le_pos in Hle. rewrite Pos2Z.inj_pow in Hle.
  destruct (Z_le_gt_dec (Zpos (Pos.size p)) 53) as [Hok | Hbig]; [exact Hok|].
  exfalso.
  assert (2 ^ 54 <= 2 ^ Zpos (Pos.size p)) by (apply Z.pow_le_mono_r; lia).
  change (Zpos p~0) with (2 * Zpos p) in Hle.
  change (2 ^ 54) with (2 * 2 ^ 53) in H0. lia.
Qed.

(** The float64 of a count is a positive finite number. *)
Lemma Z2F_count (k : Z) :
  1 <= k < 2 ^ 53 ->
  exists m e, FloatOps.Prim2SF (Z2F k) = SpecFloat.S754_finite false m e.
Proof.
  intros [Hlo Hhi]. destruct k as [|p|p]; try lia.
  unfold Z2F, SpecFloat.binary_normalize, SpecFloat.binary_round.
  pose proof (digits2_pos_bound p Hhi) as Hd.
  assert (Hfexp : SpecFloat.fexp FloatOps.prec FloatOps.emax
                    (Zpos (SpecFloat.digits2_pos p) + 0)
                  = Zpos (SpecFloat.digits2_pos p) - 53).
  { unfold SpecFloat.fexp, SpecFloat.emin.
    change FloatOps.prec with 53. change FloatOps.emax with 1024. lia. }
  rewrite Hfexp. unfold SpecFloat.shl_align.
  rewrite Z.sub_0_r.
  destruct (Zpos (SpecFloat.digits2_pos p) - 53) as [|q|q] eqn:Eq; try lia.
  - assert (Hc : Z.max (Zpos (SpecFloat.digits2_pos p) + 0 - 53) (-1074) = 0)
      by lia.
    rewrite (round_canonical false p 0 Hc) by lia.
    exists p, 0. apply FloatAxioms.Prim2SF_SF2Prim.
    unfold SpecFloat.valid_binary, SpecFloat.bounded,
      SpecFloat.canonical_mantissa, SpecFloat.fexp, SpecFloat.emin.
    change FloatOps.prec with 53. change FloatOps.emax with 1024.
    apply andb_true_iff. split; [apply Z.eqb_eq | apply Z.leb_le]; lia.
  - assert (Hc : Z.max (Zpos (SpecFloat.digits2_pos (Pos.iter xO p q))
                        + Zneg q - 53) (-1074) = Zneg q)
      by (rewrite digits2_pos_iter; lia).
    rewrite (round_canonical false _ _ Hc) by lia.
    eexists _, _. apply FloatAxioms.Prim2SF_SF2Prim.
    unfold SpecFloat.valid_binary, SpecFloat.bounded,
      SpecFloat.canonical_mantissa, SpecFloat.fexp, SpecFloat.emin.
    change FloatOps.prec with 53. change FloatOps.emax with 1024.
    apply andb_true_iff. split; [apply Z.eqb_eq | apply Z.leb_le]; lia.
Qed.

Lemma Prim2SF_zero :
  FloatOps.Prim2SF PrimFloat.zero = SpecFloat.S754_zero false.
Proof. reflexivity. Qed.

Lemma div_zero_count (z : PrimFloat.float) (b : bool) (k : Z) :
  1 <= k < 2 ^ 53 ->
  FloatOps.Prim2SF z = SpecFloat.S754_zero b ->
  FloatOps.Prim2SF (PrimFloat.div z (Z2F k)) = SpecFloat.S754_zero b.
Proof.
  intros Hk Hz. destruct (Z2F_count k Hk) as (m & e & Hc).
  rewrite FloatAxioms.div_spec, Hz, Hc. cbn. now rewrite xorb_false_r.
Qed.

Lemma sub_self_finite (x : PrimFloat.float)
    (b : bool) (m : positive) (e : Z) :
  FloatOps.Prim2SF x = SpecFloat.S754_finite b m e ->
  PrimFloat.sub x x = PrimFloat.zero.
Proof.
  intros Hx. to_spec. rewrite Hx.
  unfold FloatAxioms.SF64sub, SpecFloat.SFsub. now rewrite Z.sub_diag.
Qed.

Lemma add_zero_finite (x z : PrimFloat.float)
    (b c : bool) (m : positive) (e : Z) :
  FloatOps.Prim2SF x = SpecFloat.S754_finite b m e ->
  FloatOps.Prim2SF z = SpecFloat.S754_zero c ->
  PrimFloat.add x z = x /\ PrimFloat.add z x = x /\ PrimFloat.sub x z = x.
Proof.
  intros Hx Hz. repeat split; to_spec; rewrite Hx, Hz; reflexivity.
Qed.

Lemma div_one_finite (x : PrimFloat.float)
    (b : bool) (m : positive) (e : Z) :
  FloatOps.Prim2SF x = SpecFloat.S754_finite b m e ->
  PrimFloat.div x PrimFloat.one = x.
Proof.
  intros Hx. to_spec. pose proof (FloatAxioms.Prim2SF_valid x) as Hv.
  rewrite Hx in *. now apply SFdiv_one.
Qed.

Lemma add_zero_mul_zero (x : PrimFloat.float)
    (b : bool) (m : positive) (e : Z) :
  FloatOps.Prim2SF x = SpecFloat.S754_finite b m e ->
  PrimFloat.add PrimFloat.zero (PrimFloat.mul PrimFloat.zero x)
  = PrimFloat.zero.
Proof.
  intros Hx. to_spec. rewrite Hx, Prim2SF_zero. now destruct b.
Qed.

(** Welford on equal finite values: the mean stays the value and the sum
    of squared deviations stays zero. *)
Lemma welford_first_finite (x : PrimFloat.float)
    (b : bool) (m : positive) (e : Z) :
  FloatOps.Prim2SF x = SpecFloat.S754_finite b m e ->
  welford_step (0, PrimFloat.zero, PrimFloat.zero) x = (1, x, PrimFloat.zero).
Proof.
  intros Hx. unfold welford_step. cbn [Z.add].
  change (Z2F 1) with PrimFloat.one.
  destruct (add_zero_finite x PrimFloat.zero b false m e Hx Prim2SF_zero)
    as (_ & H2 & H3).
  rewrite H3, (div_one_finite x b m e Hx), H2, (sub_self_finite x b m e Hx).
  now rewrite (add_zero_mul_zero x b m e Hx).
Qed.

Lemma welford_next_finite (x : PrimFloat.float)
    (b : bool) (m : positive) (e : Z) (k : Z) :
  FloatOps.Prim2SF x = SpecFloat.S754_finite b m e ->
  1 <= k + 1 < 2 ^ 53 ->
  welford_step (k, x, PrimFloat.zero) x = (k + 1, x, PrimFloat.zero).
Proof.
  intros Hx Hk. unfold welford_step.
  rewrite (sub_self_finite x b m e Hx).
  assert (Hd : PrimFloat.add x (PrimFloat.div PrimFloat.zero (Z2F (k + 1)))
               = x).
  { pose proof (div_zero_count PrimFloat.zero false (k + 1) Hk Prim2SF_zero)
      as Hz.
    now destruct (add_zero_finite x _ b false m e Hx Hz) as (H1 & _). }
  rewrite Hd, (sub_self_finite x b m e Hx). reflexivity.
Qed.

Lemma welford_fold_finite (x : PrimFloat.float)
    (b : bool) (m : positive) (e : Z) (n : nat) (k : Z) :
  FloatOps.Prim2SF x = SpecFloat.S754_finite b m e ->
  0 <= k -> k + Z.of_nat n < 2 ^ 53 ->
  fold_left welford_step (repeat x n) (k, x, PrimFloat.zero)
  = (k + Z.of_nat n, x, PrimFloat.zero).
Proof.
  intros Hx. revert k. induction n as [|n IH]; intros k Hk Hn.
  - simpl. now rewrite Z.add_0_r.
  - cbn [repeat fold_left].
    rewrite (welford_next_finite x b m e k Hx) by lia.
    rewrite IH by lia. f_equal. f_equal. lia.
Qed.

Lemma welford_step_zero (x : PrimFloat.float) (b : bool) (k : Z) :
  FloatOps.Prim2SF x = SpecFloat.S754_zero b ->
  1 <= k + 1 < 2 ^ 53 ->
  welford_step (k, PrimFloat.zero, PrimFloat.zero) x
  = (k + 1, PrimFloat.zero, PrimFloat.zero).
Proof.
  intros Hx Hk. unfold welford_step.
  assert (Hs : FloatOps.Prim2SF (PrimFloat.sub x PrimFloat.zero)
               = SpecFloat.S754_zero b).
  { rewrite FloatAxioms.sub_spec, Hx, Prim2SF_zero. now destruct b. }
  assert (Hm : PrimFloat.add PrimFloat.zero
                 (PrimFloat.div (PrimFloat.sub x PrimFloat.zero) (Z2F (k + 1)))
               = PrimFloat.zero).
  { apply FloatAxioms.Prim2SF_inj.
    rewrite FloatAxioms.add_spec, (div_zero_count _ b (k + 1) Hk Hs),
      Prim2SF_zero.
    now destruct b. }
  rewrite Hm. f_equal. to_spec. rewrite Hs, Prim2SF_zero. now destruct b.
Qed.

Lemma welford_fold_zero (x : PrimFloat.float) (b : bool) (n : nat) (k : Z) :
  FloatOps.Prim2SF x = SpecFloat.S754_zero b ->
  0 <= k -> k + Z.of_nat n < 2 ^ 53 ->
  fold_left welford_step (repeat x n) (k, PrimFloat.zero, PrimFloat.zero)
  = (k + Z.of_nat n, PrimFloat.zero, PrimFloat.zero).
Proof.
  intros Hx. revert k. induction n as [|n IH]; intros k Hk Hn.
  - simpl. now rewrite Z.add_0_r.
  - cbn [repeat fold_left].
    rewrite (welford_step_zero x b k Hx) by lia.
    rewrite IH by lia. f_equal. f_equal. lia.
Qed.

Lemma welford_fold_nan (l : list PrimFloat.float)
    (st : Z * PrimFloat.float * PrimFloat.float) :
  FloatOps.Prim2SF (snd st) = SpecFloat.S754_nan ->
  FloatOps.Prim2SF (snd (fold_left welford_step l st)) = SpecFloat.S754_nan.
Proof.
  revert st. induction l as [|v l IH]; intros [[k mean] m2] H.
  - exact H.
  - cbn [fold_left]. apply IH. cbn [snd] in *. unfold welford_step. cbn [snd].
    now rewrite FloatAxioms.add_spec, H.
Qed.

Lemma welford_first_not_finite (x : PrimFloat.float) :
  (exists b, FloatOps.Prim2SF x = SpecFloat.S754_infinity b)
  \/ FloatOps.Prim2SF x = SpecFloat.S754_nan ->
  FloatOps.Prim2SF
    (snd (welford_step (0, PrimFloat.zero, PrimFloat.zero) x))
  = SpecFloat.S754_nan.
Proof.
  intros Hx. unfold welford_step. cbn [snd Z.add].
  change (Z2F 1) with PrimFloat.one.
  rewrite FloatAxioms.add_spec, FloatAxioms.mul_spec, !FloatAxioms.sub_spec,
    FloatAxioms.add_spec, FloatAxioms.div_spec, FloatAxioms.sub_spec.
  change (FloatOps.Prim2SF PrimFloat.zero) with (SpecFloat.S754_zero false).
  change (FloatOps.Prim2SF PrimFloat.one)
    with (SpecFloat.S754_finite false 4503599627370496 (-52)).
  destruct Hx as [[b ->] | ->]; [now destruct b | reflexivity].
Qed.

Lemma is_nan_spec (x : PrimFloat.float) :
  FloatOps.Prim2SF x = SpecFloat.S754_nan -> PrimFloat.is_nan x = true.
Proof.
  intros H. unfold PrimFloat.is_nan. now rewrite FloatAxioms.eqb_spec, H.
Qed.

(** In binary64 the standard deviation of a group of equal values, filled,
    is zero. *)
Lemma binary64_constant_std (x : PrimFloat.float) (n : nat) :
  (2 <= n)%nat -> Z.of_nat n < 2 ^ 53 ->
  (if PrimFloat.is_nan (welford_std (repeat x n)) then PrimFloat.zero
   else welford_std (repeat x n)) = PrimFloat.zero.
Proof.
  intros Hn Hbig. destruct n as [|n]; [lia|].
  assert (Hzero : forall z, FloatOps.Prim2SF z = SpecFloat.S754_zero false ->
            PrimFloat.sqrt (PrimFloat.div z (Z2F (Z.of_nat (S n) - 1)))
            = PrimFloat.zero).
  { intros z Hz. apply FloatAxioms.Prim2SF_inj.
    rewrite FloatAxioms.sqrt_spec.
    rewrite (div_zero_count z false (Z.of_nat (S n) - 1))
      by (assumption || lia).
    reflexivity. }
  assert (Hnan : (exists b, FloatOps.Prim2SF x = SpecFloat.S754_infinity b)
                 \/ FloatOps.Prim2SF x = SpecFloat.S754_nan ->
                 PrimFloat.is_nan (welford_std (repeat x (S n))) = true).
  { intros H. apply is_nan_spec. unfold welford_std. cbn [repeat fold_left].
    pose proof (welford_fold_nan (repeat x n) _
                  (welford_first_not_finite x H)) as Hm2.
    destruct (fold_left welford_step (repeat x n) _) as [[k mean] m2].
    cbn [snd] in Hm2.
    now rewrite FloatAxioms.sqrt_spec, FloatAxioms.div_spec, Hm2. }
  destruct (FloatOps.Prim2SF x) as [b | b | | b m e] eqn:Hx.
  - unfold welford_std. cbn [repeat fold_left].
    rewrite (welford_step_zero x b 0 Hx) by lia.
    rewrite (welford_fold_zero x b n _ Hx) by lia.
    replace (0 + 1 + Z.of_nat n) with (Z.of_nat (S n)) by lia.
    now rewrite Hzero.
  - rewrite Hnan; [reflexivity | left; now exists b].
  - rewrite Hnan; [reflexivity | now right].
  - unfold welford_std. cbn [repeat fold_left].
    rewrite (welford_first_finite x b m e Hx).
    rewrite (welford_fold_finite x b m e n _ Hx) by lia.
    replace (1 + Z.of_nat n) with (Z.of_nat (S n)) by lia.
    now rewrite Hzero.
Qed.

(** * The pipeline in binary64

    From here on the arithmetic is [binary64]. *)

#[export] Existing Instance binary64.

(** C3, as stated, fails: with both thresholds 0, no risky merchant and no
    timestamp anywhere, the last row of [undated_df] (amount 1000 in an
    account whose other nine amounts are 10) is still flagged. *)
Lemma all_off_still_flags_outlier :
  user_threshold all_off_cfg = 0
  /\ rapid_txn_threshold all_off_cfg = 0
  /\ risky_merchants all_off_cfg = []
  /\ has_dates undated_df = false
  /\ fraud_detection all_off_cfg (date_filter all_off_cfg undated_df)
     = [false; false; false; false; false; false; false; false; false; true]
  /\ cell (fraud_detection all_off_cfg undated_df) 9 = true.
Proof.
  do 5 (split; [vm_compute; reflexivity|]). vm_compute. reflexivity.
Qed.

(** ** Rounding in the outlier detector *)

(** X20.  The verdict of the outlier detector can depend on the order of
    the rows: in the account with the amounts 8, 3, 3, 0, 0, 0, 0 the row
    of amount 8 is flagged, and in the same rows in reverse order it is
    not, the standard deviation being rounded to just under 3 in the first
    order and to 3 in the second (the mean is 2 in both). *)
Theorem outlier_verdict_depends_on_row_order :
  exists (df df' : DataFrame) (i j : nat) (r : Txn),
    Permutation df df'
    /\ nth_error df i = Some r /\ nth_error df' j = Some r
    /\ acct_mean df r = Some (of_cell 2)
    /\ acct_mean df' r = Some (of_cell 2)
    /\ fgt (of_cell 3) (acct_std df r) = true
    /\ acct_std df' r = of_cell 3
    /\ cell (fraud_detection all_off_cfg df) i = true
    /\ cell (fraud_detection all_off_cfg df') j = false.
Proof.
  exists skewed_df, (rev skewed_df), 0%nat, 6%nat, (txn "A" 8 None).
  split; [apply Permutation_rev|].
  do 7 (split; [vm_compute; reflexivity|]). vm_compute. reflexivity.
Qed.

(** X21.  Rows of an account whose amounts are all equal can be flagged:
    in the account with three amounts of 0.7 the standard deviation is 0,
    the mean is rounded to just under the amount, and the three rows are
    flagged with every switch off. *)
Theorem equal_amounts_can_be_flagged :
  exists df : DataFrame,
    df <> []
    /\ (forall r r', In r df -> In r' df -> r = r')
    /\ forall i r, nth_error df i = Some r ->
         acct_std df r = fzero
         /\ (exists m, acct_mean df r = Some m
                       /\ fgt (of_cell (amount r)) m = true)
         /\ cell (alone (outlier_block df) df) i = true
         /\ cell (fraud_detection all_off_cfg df) i = true.
Proof.
  exists equal_amounts_df. split; [discriminate|]. split.
  - intros r r' [<- | [<- | [<- | []]]] [<- | [<- | [<- | []]]]; reflexivity.
  - intros [|[|[|i]]] r H; cbn in H; try (destruct i; discriminate);
      injection H as <-;
      (split; [vm_compute; reflexivity|]);
      (split; [eexists; split; vm_compute; reflexivity|]);
      (split; vm_compute; reflexivity).
Qed.

(** ** The theorems at the sample inputs *)

(** The scenario: row 0 of account A is flagged by the rapid detector. *)
Lemma rapid_succession_account_escalation_witness :
  cell (alone (rapid_block scenario_cfg scenario_df) scenario_df) 0 = true.
Proof.
  destruct (rapid_succession_account_escalation scenario_cfg scenario_df 0
              (txn "A" 100 (Some (at_time day_2024_01_01 10 0 0))) eq_refl)
    as (_ & Hiff & _).
  apply Hiff. split; [reflexivity|]. split; [reflexivity|].
  vm_compute. discriminate.
Defined.

(** Every account of [amounts_df] has one row and no row has a timestamp:
    with every switch off the first row is not flagged. *)
Lemma all_off_leaves_outliers_only_witness :
  date_filter all_off_cfg amounts_df = amounts_df
  /\ cell (fraud_detection all_off_cfg amounts_df) 0
     = cell (alone (outlier_block amounts_df) amounts_df) 0.
Proof.
  destruct (all_off_leaves_outliers_only all_off_cfg amounts_df 0
              (txn "A" 500 None) eq_refl eq_refl eq_refl eq_refl eq_refl)
    as (H1 & _ & _ & _ & _ & H2 & _).
  split; [exact H1 | exact H2].
Defined.


(** Threshold 1000: the amount 1500 is flagged, the amount 1000 is not. *)
Lemma high_value_strict_per_record_witness :
  cell (alone (high_value_block threshold_1000_cfg amounts_df) amounts_df) 1
  = true
  /\ cell (alone (high_value_block threshold_1000_cfg amounts_df) amounts_df) 3
     = false.
Proof.
  split.
  - destruct (high_value_strict_per_record threshold_1000_cfg amounts_df 1
                (txn "B" 1500 None) eq_refl) as (Hpos & _).
    destruct (Hpos eq_refl) as (Hiff & _). apply Hiff. reflexivity.
  - destruct (high_value_strict_per_record threshold_1000_cfg amounts_df 3
                (txn "D" 1000 None) eq_refl) as (Hpos & _).
    destruct (Hpos eq_refl) as (_ & Heq). apply Heq. reflexivity.
Defined.

(** The window 2024-01-01 .. 2024-01-02 keeps the rows stamped at its two
    bounds; a reversed window keeps nothing; no window, no change. *)
Lemma date_filter_inclusive_window_witness :
  In (txn "A" 1 (Some (to_datetime day_2024_01_01)))
     (date_filter january_cfg bounds_df)
  /\ In (txn "A" 2 (Some (to_datetime (day_2024_01_01 + 1))))
        (date_filter january_cfg bounds_df)
  /\ date_filter reversed_cfg bounds_df = []
  /\ date_filter all_off_cfg bounds_df = bounds_df.
Proof.
  destruct (date_filter_inclusive_window january_cfg bounds_df) as (Hon & _).
  destruct (Hon _ _ eq_refl eq_refl eq_refl) as (_ & _ & Hends & _).
  destruct (date_filter_inclusive_window reversed_cfg bounds_df) as (Hrev & _).
  destruct (Hrev _ _ eq_refl eq_refl eq_refl) as (_ & _ & _ & Hnil).
  destruct (date_filter_inclusive_window all_off_cfg bounds_df) as (_ & Hoff).
  split; [|split; [|split]].
  - apply Hends; [simpl; auto | discriminate | left; reflexivity].
  - apply Hends; [simpl; auto | discriminate | right; reflexivity].
  - apply Hnil. reflexivity.
  - apply Hoff. left. reflexivity.
Defined.

(** Adding the grocer to the risky merchants keeps the casino row flagged. *)
Lemma aggregation_is_monotone_or_witness :
  cell (fraud_detection
          (with_risky casino_cfg ["casino"%string; "grocer"%string])
          merchants_df) 0 = true
  /\ cell (outlier_block merchants_df [true; false]) 0 = true.
Proof.
  destruct (aggregation_is_monotone_or casino_cfg merchants_df 0)
    as (_ & Hkeep & Hmono).
  split.
  - destruct (Hmono ["casino"%string; "grocer"%string]) as (_ & H).
    + intros x [<- | []]. left. reflexivity.
    + apply H. reflexivity.
  - destruct (Hkeep [true; false] eq_refl eq_refl) as (_ & _ & H & _).
    exact H.
Defined.

(** The row of Saturday 2024-01-06, 00:00:00, is flagged as a weekend row. *)
Lemma weekend_saturday_sunday_witness :
  cell (alone (weekend_block week_df) week_df) 1 = true.
Proof.
  destruct (weekend_saturday_sunday week_df 1
              (txn "A" 2 (Some (at_time (day_2024_01_01 + 5) 0 0 0))) eq_refl)
    as (Hon & _).
  destruct (Hon eq_refl) as (Hiff & _). apply Hiff.
  eexists. split; [reflexivity|]. vm_compute. discriminate.
Defined.

(** Account A reaches two rapid gaps: its row without timestamp is flagged
    along with the others. *)
Lemma rapid_escalation_covers_missing_dates_witness :
  cell (alone (rapid_block scenario_cfg missing_date_df) missing_date_df) 3
  = true.
Proof.
  destruct (rapid_escalation_covers_missing_dates scenario_cfg missing_date_df
              0 (txn "A" 100 (Some (at_time day_2024_01_01 10 0 0))) eq_refl)
    as (_ & Hall & _).
  apply (Hall 3%nat (txn "A" 20 None)); reflexivity.
Defined.

(** Under the January window the row without timestamp is dropped. *)
Lemma date_filter_drops_missing_dates_witness :
  ~ In (txn "B" 4 None) (date_filter january_cfg bounds_df).
Proof.
  destruct (date_filter_drops_missing_dates january_cfg bounds_df _ _
              eq_refl eq_refl eq_refl) as (Hdrop & _).
  apply Hdrop; [simpl; auto 6 | reflexivity].
Defined.

(** ** The further properties at the sample inputs *)

Lemma risky_merchant_membership_witness :
  cell (alone (risky_block casino_cfg merchants_df) merchants_df) 0 = true.
Proof.
  destruct (risky_merchant_membership casino_cfg merchants_df 0
              (mkTxn 5 "A" "purchase" "casino" None) eq_refl) as (Hiff & _).
  apply Hiff. left. reflexivity.
Defined.

Lemma extreme_amounts_are_attained_witness :
  exists rep, evaluate scenario_cfg scenario_df = Returned rep
    /\ min_amount rep = Some 100%Q /\ max_amount rep = Some 150%Q
    /\ avg_amount rep = Some (of_cell 130).
Proof.
  eexists. split; [reflexivity|].
  destruct (extreme_amounts_are_attained scenario_cfg scenario_df _ eq_refl)
    as (mn & mx & H1 & H2 & H3 & _).
  split; [|split]; vm_compute; reflexivity.
Defined.

Lemma rapid_flag_needs_enough_rows_witness :
  rapid_txn_threshold scenario_cfg + 1
  <= len (filter notna (group_of scenario_df "A")).
Proof.
  destruct (rapid_flag_needs_enough_rows scenario_cfg scenario_df 0
              (txn "A" 100 (Some (at_time day_2024_01_01 10 0 0))) eq_refl)
    as (_ & Hneed & _).
  apply Hneed. reflexivity.
Defined.

Lemma flagged_table_rows_witness :
  exists rep, evaluate casino_cfg merchants_df = Returned rep
    /\ In (mkTxn 5 "A" "purchase" "casino" None) (flagged_df rep).
Proof.
  eexists. split; [reflexivity|].
  destruct (flagged_table_rows casino_cfg merchants_df _
              (mkTxn 5 "A" "purchase" "casino" None) eq_refl) as (Hiff & _).
  apply Hiff. split; [left; reflexivity|].
  right. right. right. right. left. reflexivity.
Defined.

Lemma flag_depends_on_own_account_witness :
  cell (fraud_detection scenario_cfg scenario_df) 0
  = cell (fraud_detection scenario_cfg other_account_df) 0.
Proof.
  apply (flag_depends_on_own_account scenario_cfg scenario_df other_account_df
           0 0 (txn "A" 100 (Some (at_time day_2024_01_01 10 0 0))));
    reflexivity.
Defined.

Lemma date_filter_nested_windows_witness :
  date_filter january_cfg (date_filter wide_cfg bounds_df)
  = date_filter january_cfg bounds_df.
Proof.
  destruct (date_filter_nested_windows january_cfg wide_cfg bounds_df
              _ _ _ _ eq_refl eq_refl eq_refl eq_refl) as (_ & _ & H).
  - unfold day_2024_01_01. lia.
  - unfold day_2024_01_01. lia.
  - exact H.
Defined.

Lemma prepare_keeps_numeric_rows_witness :
  2 = len (filter (fun r => is_none (coerce (raw_amount r))) raw_upload).
Proof.
  destruct (prepare_keeps_numeric_rows both_mapped raw_upload _ _ eq_refl)
    as (_ & _ & H & _).
  exact H.
Defined.

Lemma prepare_reads_mapped_columns_only_witness :
  prepare both_mapped raw_upload = prepare both_mapped raw_upload_other.
Proof.
  apply prepare_reads_mapped_columns_only.
  repeat constructor.
Defined.

Lemma unmapped_columns_defaults_witness :
  exists df,
    to_frame (keep_some (finish_row none_mapped)
                (assign_merchant none_mapped raw_upload)) = Some df
    /\ incl (merchant_options df) ["unknown"%string].
Proof.
  destruct (unmapped_columns_defaults none_mapped raw_upload _ _ eq_refl)
    as (Hm & _).
  destruct (Hm eq_refl) as (df & Hdf & _ & Hopt).
  exists df. split; [exact Hdf | exact Hopt].
Defined.

Lemma selected_merchant_flags_a_row_witness :
  exists rep, evaluate casino_cfg merchants_df = Returned rep
    /\ flagged_df rep <> [] /\ (0 < flagged_pct rep)%Q.
Proof.
  destruct (selected_merchant_flags_a_row casino_cfg merchants_df)
    as (_ & _ & H).
  - discriminate.
  - intros m [<- | []]. left. reflexivity.
  - reflexivity.
  - exact H.
Defined.

Lemma raising_thresholds_never_adds_flags_witness :
  cell (alone (high_value_block low_thresholds_cfg amounts_df) amounts_df) 1
  = true.
Proof.
  destruct (raising_thresholds_never_adds_flags
              low_thresholds_cfg high_thresholds_cfg amounts_df 1
              (txn "B" 1500 None) eq_refl eq_refl) as (H & _).
  - cbn. lia.
  - cbn. lia.
  - apply H. reflexivity.
Defined.

